(** * Webhook listener of the activepieces-orchestrator skill

    A shallow embedding of [scripts/webhook-server.py]: the request parsing of
    [do_POST], the dispatch of [handle_action] and the five action handlers,
    followed by the properties of the listener that the design document
    states about them.

    Python values are dynamically typed, so the embedding works on a type of
    JSON-shaped values; an operation that Python rejects at run time
    ([5 .upper()], [None[:100]]) raises in the embedding as well.  Effects
    (lines printed, child processes started) are threaded through a small
    state-and-exception monad. *)

From Stdlib Require Import String Ascii List ZArith Bool Lia SpecFloat DecimalString.
Import ListNotations.
Open Scope string_scope.

(** ** Strings

    A Python [str] is modelled by [string]; every [ascii] stands for the
    character with that code (0..255). *)

Definition is_empty (s : string) : bool :=
  match s with EmptyString => true | String _ _ => false end.

(** [str.isspace] on one character with a code below 256. *)
Definition isspace (c : ascii) : bool :=
  let n := nat_of_ascii c in
  (((9 <=? n) && (n <=? 13)) || ((28 <=? n) && (n <=? 32))
   || (n =? 133) || (n =? 160))%nat.

Fixpoint lstrip (s : string) : string :=
  match s with
  | EmptyString => EmptyString
  | String c s' => if isspace c then lstrip s' else s
  end.

Fixpoint rstrip (s : string) : string :=
  match s with
  | EmptyString => EmptyString
  | String c s' =>
      match rstrip s' with
      | EmptyString => if isspace c then EmptyString else String c EmptyString
      | r => String c r
      end
  end.

(** [s.strip()] *)
Definition strip (s : string) : string := rstrip (lstrip s).

(** [s.replace(old, new)] for a one-character [old], the only form the
    handlers use. *)
Fixpoint replace (old : ascii) (new : string) (s : string) : string :=
  match s with
  | EmptyString => EmptyString
  | String c s' =>
      if Ascii.eqb c old then new ++ replace old new s'
      else String c (replace old new s')
  end.

(** [s.startswith(p)] *)
Definition startswith (s p : string) : bool := String.prefix p s.

(** [s[:n]] *)
Fixpoint str_take (n : nat) (s : string) : string :=
  match n, s with
  | S n', String c s' => String c (str_take n' s')
  | _, _ => EmptyString
  end.

Definition dquote : ascii := "034"%char.
Definition squote : ascii := "039"%char.
Definition newline : ascii := "010"%char.
Definition backslash : ascii := "092"%char.
Definition str1 (c : ascii) : string := String c EmptyString.

(** [str(n)] for a length. *)
Definition str_of_nat (n : nat) : string := NilEmpty.string_of_uint (Nat.to_uint n).

(** ** Values *)

#[local] Set Warnings "-register-all".

Inductive pyval : Type :=
| PNone
| PBool (b : bool)
| PInt (z : Z)
| PFloat (f : spec_float)
| PStr (s : string)
| PList (l : list pyval)
| PDict (d : list (string * pyval)).

(** A [dict] with string keys, in insertion order; the first binding of a
    key is the live one. *)
Definition pydict := list (string * pyval).

Fixpoint dict_lookup (d : pydict) (k : string) : option pyval :=
  match d with
  | [] => None
  | (k', v) :: d' => if String.eqb k' k then Some v else dict_lookup d' k
  end.

(** [d.get(k, default)]; Python evaluates [default] before the call. *)
Definition dict_get (d : pydict) (k : string) (default : pyval) : pyval :=
  match dict_lookup d k with
  | Some v => v
  | None => default
  end.

(** Truth value of a value in a condition. *)
Definition py_truthy (v : pyval) : bool :=
  match v with
  | PNone => false
  | PBool b => b
  | PInt z => negb (z =? 0)%Z
  | PFloat (S754_zero _) => false
  | PFloat _ => true
  | PStr s => negb (is_empty s)
  | PList l => match l with [] => false | _ => true end
  | PDict d => match d with [] => false | _ => true end
  end.

(** ** Exceptions, processes and observable events *)

Inductive cmdline : Type :=
| Argv (args : list string)          (* subprocess.run([...]) *)
| Shell (command : string).          (* subprocess.run(command, shell=True) *)

Inductive exn : Type :=
| AttributeError
| TypeError
| CalledProcessError (returncode : Z) (cmd : cmdline)
| TimeoutExpired (cmd : cmdline) (timeout : Z)
| OtherException (name : string).
  (* any other subclass of Exception that subprocess.run raises itself:
     OSError when the program cannot be started, ValueError for a NUL
     character in an argument, UnicodeDecodeError while decoding the
     captured output under text=True *)

Definition is_CalledProcessError (e : exn) : bool :=
  match e with CalledProcessError _ _ => true | _ => false end.

Definition is_TimeoutExpired (e : exn) : bool :=
  match e with TimeoutExpired _ _ => true | _ => false end.

(** What a child process does once [subprocess.run] is asked to run it:
    it runs for [millis] milliseconds and exits with a return code and its
    captured output, or [subprocess.run] raises an exception of its own,
    [OtherException name]. *)
Inductive proc_behaviour : Type :=
| Exits (millis : Z) (returncode : Z) (stdout stderr : string)
| Fails (name : string).

Inductive event : Type :=
| Printed (line : string)
| Spawn (cmd : cmdline)
| Killed (cmd : cmdline).

Definition trace := list event.

Definition is_spawn (ev : event) : bool :=
  match ev with Spawn _ => true | _ => false end.

(** The Python library and the machine the server runs on.  None of this is
    code of the repository; the listener is verified for every runtime. *)
Class PyRuntime : Type := {
  (* json.loads: None when it raises JSONDecodeError / ValueError, the
     exceptions that do_POST catches; a body nested so deeply that
     json.loads raises RecursionError is outside this model *)
  json_loads : string -> option pyval;
  (* json.dumps(v) and json.dumps(v, indent=2) *)
  json_dumps : pyval -> string;
  json_dumps_indent : pyval -> string;
  (* str(v) of a value that is not a str *)
  py_repr : pyval -> string;
  (* str(e) of an exception *)
  exn_str : exn -> string;
  (* s.upper() *)
  str_upper : string -> string;
  (* datetime.now().strftime('%Y-%m-%d %H:%M:%S') *)
  timestamp : trace -> string;
  (* the behaviour of a command started after the events so far *)
  os_run : trace -> cmdline -> proc_behaviour
}.

(** ** The monad of handlers *)

Inductive outcome (A : Type) : Type :=
| Ret (a : A)
| Raise (e : exn).
Arguments Ret {A} a.
Arguments Raise {A} e.

Definition M (A : Type) : Type := trace -> outcome A * trace.

Definition ret {A} (a : A) : M A := fun t => (Ret a, t).
Definition raise {A} (e : exn) : M A := fun t => (Raise e, t).
Definition bind {A B} (m : M A) (k : A -> M B) : M B :=
  fun t => match m t with
           | (Ret a, t') => k a t'
           | (Raise e, t') => (Raise e, t')
           end.
Definition emit (ev : event) : M unit := fun t => (Ret tt, (t ++ [ev])%list).
Definition get_trace : M trace := fun t => (Ret t, t).

(** [try: body except <classes>: handler]: [handlers e] is the first
    except clause that matches [e], if any. *)
Definition try_except {A} (body : M A) (handlers : exn -> option (M A)) : M A :=
  fun t => match body t with
           | (Ret a, t') => (Ret a, t')
           | (Raise e, t') =>
               match handlers e with
               | Some h => h t'
               | None => (Raise e, t')
               end
           end.

Notation "x <- m ;; k" := (bind m (fun x => k))
  (at level 61, m at next level, right associativity).
Notation "m ;;; k" := (bind m (fun _ => k))
  (at level 61, right associativity).

(** [print(line)]; the line is taken to be encodable on the standard output
    of the server, so that printing succeeds. *)
Definition print (line : string) : M unit := emit (Printed line).

(** ** The listener *)

Section Listener.

Context {R : PyRuntime}.

(** *** [subprocess.run] *)

Record completed : Type := {
  returncode : Z;
  stdout : string;
  stderr : string
}.

(** A timeout is given in seconds. *)
Definition timeout_expired (timeout : option Z) (millis : Z) : bool :=
  match timeout with
  | Some seconds => (seconds * 1000 <? millis)%Z
  | None => false
  end.

(** [subprocess.run(cmd, check=check, capture_output=True, timeout=timeout)]:
    the child is started; when the timeout expires first the child is killed
    and TimeoutExpired is raised; with [check], a return code other than 0
    raises CalledProcessError.  The event [Spawn cmd] records the attempt:
    in the [Fails] case it does not tell whether a process came to exist
    before the exception. *)
Definition subprocess_run (cmd : cmdline) (check : bool) (timeout : option Z)
  : M completed :=
  t <- get_trace ;;
  emit (Spawn cmd) ;;;
  match os_run t cmd with
  | Fails name => raise (OtherException name)
  | Exits millis rc out err =>
      if timeout_expired timeout millis then
        emit (Killed cmd) ;;;
        raise (TimeoutExpired cmd (match timeout with Some s => s | None => 0%Z end))
      else if check && negb (rc =? 0)%Z then raise (CalledProcessError rc cmd)
      else ret {| returncode := rc; stdout := out; stderr := err |}
  end.

Fixpoint argv_strs (args : list pyval) : option (list string) :=
  match args with
  | [] => Some []
  | PStr s :: args' => option_map (cons s) (argv_strs args')
  | _ :: _ => None
  end.

(** An argument vector may hold values of any type at run time;
    [subprocess.run] raises TypeError before starting anything unless all of
    them are strings. *)
Definition subprocess_run_argv (args : list pyval) (check : bool) : M completed :=
  match argv_strs args with
  | Some a => subprocess_run (Argv a) check None
  | None => raise TypeError
  end.

(** [subprocess.run(command, shell=True, capture_output=True, text=True,
    timeout=timeout)] *)
Definition subprocess_run_shell (command : pyval) (timeout : Z) : M completed :=
  match command with
  | PStr c => subprocess_run (Shell c) false (Some timeout)
  | _ => raise TypeError
  end.

(** *** Operations on values of unknown type *)

(** [v.replace(old, new)]: only a str has the method. *)
Definition py_replace (v : pyval) (old : ascii) (new : string) : M string :=
  match v with
  | PStr s => ret (replace old new s)
  | _ => raise AttributeError
  end.

(** [v.startswith(p)] *)
Definition py_startswith (v : pyval) (p : string) : M bool :=
  match v with
  | PStr s => ret (startswith s p)
  | _ => raise AttributeError
  end.

(** [v.upper()] *)
Definition py_upper (v : pyval) : M string :=
  match v with
  | PStr s => ret (str_upper s)
  | _ => raise AttributeError
  end.

(** [v[:n]]: a str and a list can be sliced; a dict raises TypeError up to
    Python 3.11 and KeyError from 3.12 on, the other values TypeError. *)
Definition py_slice_to (n : nat) (v : pyval) : M pyval :=
  match v with
  | PStr s => ret (PStr (str_take n s))
  | PList l => ret (PList (firstn n l))
  | _ => raise TypeError
  end.

(** [v.get]: only a dict has the method. *)
Definition py_dict (v : pyval) : M pydict :=
  match v with
  | PDict d => ret d
  | _ => raise AttributeError
  end.

(** [{v}] inside an f-string. *)
Definition py_format (v : pyval) : string :=
  match v with
  | PStr s => s
  | _ => py_repr v
  end.

(** *** Action handlers *)

Definition failure (error : string) : pyval :=
  PDict [("success", PBool false); ("error", PStr error)].

Definition on_CalledProcessError (h : exn -> M pyval) (e : exn) : option (M pyval) :=
  if is_CalledProcessError e then Some (h e) else None.

Definition notify_script (clean_msg clean_title : string) (sound : pyval) : string :=
  "display notification " ++ str1 dquote ++ clean_msg ++ str1 dquote
  ++ " with title " ++ str1 dquote ++ clean_title ++ str1 dquote
  ++ " sound name " ++ str1 dquote ++ py_format sound ++ str1 dquote.

Definition action_notify (message : pyval) (data : pydict) : M pyval :=
  let title := dict_get data "title" (PStr "ActivePieces") in
  let sound := dict_get data "sound" (PStr "Glass") in
  m1 <- py_replace message dquote (str1 squote) ;;
  let clean_msg := replace newline " " (replace backslash EmptyString m1) in
  clean_title <- py_replace title dquote (str1 squote) ;;
  let script := notify_script clean_msg clean_title sound in
  try_except
    (subprocess_run_argv [PStr "osascript"; PStr "-e"; PStr script] true ;;;
     ret (PDict [("success", PBool true); ("action", PStr "notify");
                 ("message", message)]))
    (on_CalledProcessError (fun e => ret (failure (exn_str e)))).

Definition sound_file (sound : pyval) : string :=
  "/System/Library/Sounds/" ++ py_format sound ++ ".aiff".

Definition sound_script (sound : pyval) : string :=
  "do shell script " ++ str1 dquote ++ "afplay " ++ sound_file sound ++ str1 dquote.

Definition action_sound (message : pyval) (data : pydict) : M pyval :=
  let sound := dict_get data "sound" (PStr "Glass") in
  let script := sound_script sound in
  let played :=
    PDict [("success", PBool true); ("action", PStr "sound"); ("sound", sound)] in
  try_except
    (subprocess_run_argv [PStr "osascript"; PStr "-e"; PStr script] true ;;;
     ret played)
    (on_CalledProcessError (fun _ =>
       subprocess_run_argv [PStr "afplay"; PStr (sound_file sound)] false ;;;
       ret played)).

Definition action_say (message : pyval) (data : pydict) : M pyval :=
  let voice := dict_get data "voice" (PStr "Samantha") in
  clean_msg <- py_replace message dquote (str1 squote) ;;
  try_except
    (subprocess_run_argv [PStr "say"; PStr "-v"; voice; PStr clean_msg] true ;;;
     ret (PDict [("success", PBool true); ("action", PStr "say");
                 ("message", message)]))
    (on_CalledProcessError (fun e => ret (failure (exn_str e)))).

Definition action_log (message : pyval) (data : pydict) : M pyval :=
  print ("LOG: " ++ json_dumps_indent (PDict data)) ;;;
  ret (PDict [("success", PBool true); ("action", PStr "log");
              ("message", message)]).

Definition allowed_prefixes : list string := ["open "; "say "; "afplay "; "osascript "].

(** [any(command.startswith(p) for p in prefixes)] *)
Fixpoint any_startswith (command : pyval) (prefixes : list string) : M bool :=
  match prefixes with
  | [] => ret false
  | p :: prefixes' =>
      b <- py_startswith command p ;;
      if b then ret true else any_startswith command prefixes'
  end.

Definition action_execute (message : pyval) (data : pydict) : M pyval :=
  let command := dict_get data "command" (PStr EmptyString) in
  if negb (py_truthy command) then ret (failure "No command provided")
  else
    allowed <- any_startswith command allowed_prefixes ;;
    if negb allowed then ret (failure "Command not allowed")
    else
      try_except
        (result <- subprocess_run_shell command 30 ;;
         ret (PDict [("success", PBool (returncode result =? 0)%Z);
                     ("action", PStr "execute");
                     ("stdout", PStr (stdout result));
                     ("stderr", PStr (stderr result))]))
        (fun e =>
           if is_TimeoutExpired e then Some (ret (failure "Command timed out"))
           else Some (ret (failure (exn_str e)))).

(** *** Dispatch *)

Definition handler : Type := pyval -> pydict -> M pyval.

Definition actions : list (string * handler) :=
  [("notify", action_notify);
   ("notification", action_notify);
   ("sound", action_sound);
   ("say", action_say);
   ("log", action_log);
   ("execute", action_execute)].

Fixpoint registry_get (registry : list (string * handler)) (k : string)
  (default : handler) : handler :=
  match registry with
  | [] => default
  | (k', h) :: registry' =>
      if String.eqb k' k then h else registry_get registry' k default
  end.

(** [actions.get(action, self.action_notify)]: a list or a dict is not
    hashable and cannot be looked up; a value of another type is no key of
    the registry. *)
Definition handle_action (action message : pyval) (data : pydict) : M pyval :=
  match action with
  | PStr a => registry_get actions a action_notify message data
  | PList _ | PDict _ => raise TypeError
  | _ => action_notify message data
  end.

(** *** [do_POST] *)

Record envelope : Type := {
  env_action : pyval;
  env_message : pyval;
  env_data : pydict
}.

(** Lines 35-41: [data] and [is_json]. *)
Definition load_body (body : string) : bool * pyval :=
  match (if is_empty body then Some (PDict []) else json_loads body) with
  | Some data => (true, data)
  | None => (false, PDict [])
  end.

(** Lines 50-56: the message of a JSON body. *)
Definition extract_message (data : pydict) : pyval :=
  let raw_message :=
    dict_get data "message"
      (dict_get data "text" (dict_get data "raw" (PStr "Webhook received"))) in
  match raw_message with
  | PDict rm =>
      dict_get rm "result"
        (dict_get rm "text"
           (dict_get rm "content" (PStr (json_dumps raw_message))))
  | PStr s =>
      if negb (is_empty (strip s)) then raw_message
      else PStr "No message content"
  | _ =>
      if py_truthy raw_message then PStr (py_repr raw_message)
      else PStr "No message content"
  end.

(** Lines 43-57. *)
Definition parse_body (body : string) : M envelope :=
  let (is_json, data) := load_body body in
  if negb is_json && negb (is_empty (strip body)) then
    let message := strip body in
    ret {| env_action := PStr "notify";
           env_message := PStr message;
           env_data := [("title", PStr "Email AI Analysis");
                        ("message", PStr message)] |}
  else
    d <- py_dict data ;;
    let message := extract_message d in
    ret {| env_action := dict_get d "action" (PStr "notify");
           env_message := message;
           env_data := d |}.

(** Lines 60-61. *)
Definition log_request (action message : pyval) : M unit :=
  t <- get_trace ;;
  upper <- py_upper action ;;
  head <- py_slice_to 100 message ;;
  print ("[" ++ timestamp t ++ "] " ++ upper ++ ": " ++ py_format head).

(** Lines 33-64: the Action Result of a request. *)
Definition post_result (body : string) : M pyval :=
  print ("[DEBUG] Raw body received (" ++ str_of_nat (String.length body)
         ++ " bytes): " ++ str_take 500 body) ;;;
  env <- parse_body body ;;
  log_request (env_action env) (env_message env) ;;;
  handle_action (env_action env) (env_message env) (env_data env).

Record http_response : Type := {
  status : Z;
  headers : list (string * string);
  payload : string
}.

Definition do_POST (body : string) : M http_response :=
  result <- post_result body ;;
  ret {| status := 200;
         headers := [("Content-Type", "application/json");
                     ("Access-Control-Allow-Origin", str1 "042"%char)];
         payload := json_dumps result |}.

End Listener.

(** ** Vocabulary of the properties *)

Fixpoint blank (s : string) : bool :=
  match s with
  | EmptyString => true
  | String c s' => isspace c && blank s'
  end.

Definition ascii_lower (c : ascii) : ascii :=
  let n := nat_of_ascii c in
  if ((65 <=? n) && (n <=? 90))%nat then ascii_of_nat (n + 32) else c.

Fixpoint str_lower (s : string) : string :=
  match s with
  | EmptyString => EmptyString
  | String c s' => String (ascii_lower c) (str_lower s')
  end.

(** [a] is the registered name [n] written with other letter case. *)
Definition differs_by_case_only (a n : string) : Prop :=
  a <> n /\ str_lower a = str_lower n.

(** The string handed to the notification tool. *)
Definition notify_clean (m : string) : string :=
  replace newline " " (replace backslash EmptyString (replace dquote (str1 squote) m)).

(** The string handed to the speech tool. *)
Definition say_clean (m : string) : string := replace dquote (str1 squote) m.

Definition executed (rc : Z) (out err : string) : pyval :=
  PDict [("success", PBool (rc =? 0)%Z); ("action", PStr "execute");
         ("stdout", PStr out); ("stderr", PStr err)].

Definition played (data : pydict) : pyval :=
  PDict [("success", PBool true); ("action", PStr "sound");
         ("sound", dict_get data "sound" (PStr "Glass"))].

Definition result_field (r : pyval) (k : string) : option pyval :=
  match r with
  | PDict d => dict_lookup d k
  | _ => None
  end.

Definition has_bool (r : pyval) (k : string) : Prop :=
  exists b, result_field r k = Some (PBool b).

Definition has_str (r : pyval) (k : string) : Prop :=
  exists s, result_field r k = Some (PStr s).

(** The envelope of a plain-text notification. *)
Definition plain_text_envelope (body : string) : envelope :=
  {| env_action := PStr "notify";
     env_message := PStr (strip body);
     env_data := [("title", PStr "Email AI Analysis");
                  ("message", PStr (strip body))] |}.

(** The envelope of a body that carries nothing. *)
Definition default_envelope : envelope :=
  {| env_action := PStr "notify";
     env_message := PStr "Webhook received";
     env_data := [] |}.

(** Key lookup in the order of [keys]: the first key that is present wins. *)
Fixpoint first_present (d : pydict) (keys : list string) : option pyval :=
  match keys with
  | [] => None
  | k :: keys' =>
      match dict_lookup d k with
      | Some v => Some v
      | None => first_present d keys'
      end
  end.

Section Vocabulary.

Context {R : PyRuntime}.

Definition registered_names : list string := map fst actions.

(** What the child of an allowed command leads to. *)
Definition run_allowed (c : string) (t : trace) : outcome pyval * trace :=
  match os_run t (Shell c) with
  | Exits millis rc out err =>
      if (30 * 1000 <? millis)%Z then
        (Ret (failure "Command timed out"),
         (t ++ [Spawn (Shell c); Killed (Shell c)])%list)
      else
        (Ret (executed rc out err), (t ++ [Spawn (Shell c)])%list)
  | Fails name =>
      (Ret (failure (exn_str (OtherException name))),
       (t ++ [Spawn (Shell c)])%list)
  end.

Definition osascript_sound (data : pydict) : cmdline :=
  Argv ["osascript"; "-e"; sound_script (dict_get data "sound" (PStr "Glass"))].

Definition afplay_sound (data : pydict) : cmdline :=
  Argv ["afplay"; sound_file (dict_get data "sound" (PStr "Glass"))].

Definition osascript_notify (m : string) (title : string) (data : pydict) : cmdline :=
  Argv ["osascript"; "-e";
        notify_script (notify_clean m) (replace dquote (str1 squote) title)
          (dict_get data "sound" (PStr "Glass"))].

Definition say_command (m : string) (voice : string) : cmdline :=
  Argv ["say"; "-v"; voice; say_clean m].

(** The child of [cmd], started after [t], runs longer than [seconds]. *)
Definition exceeds_timeout (t : trace) (cmd : cmdline)
  (seconds : Z) : Prop :=
  exists millis rc out err,
    os_run t cmd = Exits millis rc out err /\ (seconds * 1000 < millis)%Z.

(** JSON parsing fails: the body is empty or is not valid JSON. *)
Definition json_parsing_fails (body : string) : Prop :=
  body = EmptyString \/ json_loads body = None.

End Vocabulary.

(** *** Readings that the code does not bear out *)

(** The two-way reading: an allowed command either times out or yields the
    exit status and output of its child. *)
Definition execute_times_out_or_completes : Prop :=
  forall (R : PyRuntime) (message : pyval) (data : pydict) (c : string) (t : trace),
    dict_lookup data "command" = Some (PStr c) ->
    existsb (startswith c) allowed_prefixes = true ->
    (exceeds_timeout t (Shell c) 30 ->
     action_execute message data t
     = (Ret (failure "Command timed out"),
        (t ++ [Spawn (Shell c); Killed (Shell c)])%list))
    /\ (~ exceeds_timeout t (Shell c) 30 ->
        exists rc out err,
          fst (action_execute message data t) = Ret (executed rc out err)).

(** The unconditional reading: a sound request always succeeds. *)
Definition sound_always_reports_success : Prop :=
  forall (R : PyRuntime) (message : pyval) (data : pydict) (t : trace),
  exists t', action_sound message data t = (Ret (played data), t').

(** The reading under which every result names its action. *)
Definition every_result_names_its_action : Prop :=
  forall (R : PyRuntime) (action message : pyval) (data : pydict)
         (t t' : trace) (r : pyval),
    handle_action action message data t = (Ret r, t') ->
    has_bool r "success" /\ has_str r "action".

(** The reading under which every such body is a plain-text notification. *)
Definition failed_parse_is_plain_text : Prop :=
  forall (R : PyRuntime) (body : string) (t : trace),
    json_parsing_fails body ->
    parse_body body t = (Ret (plain_text_envelope body), t).

(** ** Runtimes to run the listener on

    A runtime whose [json.loads] is given by a finite table of bodies and
    their parsed values (any other body is rejected), and whose processes
    behave as [os] says. *)

Definition table_runtime (table : list (string * pyval))
  (os : trace -> cmdline -> proc_behaviour) : PyRuntime :=
  {| json_loads := dict_lookup table;
     json_dumps := fun _ => "<json>";
     json_dumps_indent := fun _ => "<json>";
     py_repr := fun _ => "<repr>";
     exn_str := fun e =>
       match e with
       | OtherException name => name
       | CalledProcessError _ _ => "CalledProcessError"
       | TimeoutExpired _ _ => "TimeoutExpired"
       | AttributeError => "AttributeError"
       | TypeError => "TypeError"
       end;
     str_upper := fun s => s;
     timestamp := fun _ => "2025-01-01 00:00:00";
     os_run := os |}.

(** Every command exits at once with the given return code. *)
Definition os_exit (rc : Z) : trace -> cmdline -> proc_behaviour :=
  fun _ _ => Exits 0 rc EmptyString EmptyString.

(** No command can be started. *)
Definition os_broken : trace -> cmdline -> proc_behaviour :=
  fun _ _ => Fails "OSError".

(** Every command runs for the given number of milliseconds. *)
Definition os_slow (millis : Z) : trace -> cmdline -> proc_behaviour :=
  fun _ _ => Exits millis 0 EmptyString EmptyString.

(** *** Sample bodies *)

Definition quoted (s : string) : string := str1 dquote ++ s ++ str1 dquote.

(** The object with text = "hi". *)
Definition body_text_hi : string := "{" ++ quoted "text" ++ ": " ++ quoted "hi" ++ "}".

(** The object with action = 5. *)
Definition body_action_5 : string := "{" ++ quoted "action" ++ ": 5}".

(** The object with action = "execute" and command = "rm -rf /". *)
Definition body_execute_rm : string :=
  "{" ++ quoted "action" ++ ": " ++ quoted "execute" ++ ", "
  ++ quoted "command" ++ ": " ++ quoted "rm -rf /" ++ "}".

(** The object with action = "execute" and command = 5. *)
Definition body_execute_5 : string :=
  "{" ++ quoted "action" ++ ": " ++ quoted "execute" ++ ", "
  ++ quoted "command" ++ ": 5}".

Definition sample_bodies : list (string * pyval) :=
  [(body_text_hi, PDict [("text", PStr "hi")]);
   (body_action_5, PDict [("action", PInt 5)]);
   (body_execute_5, PDict [("action", PStr "execute"); ("command", PInt 5)]);
   (body_execute_rm,
    PDict [("action", PStr "execute"); ("command", PStr "rm -rf /")])].

Definition sample_runtime : PyRuntime := table_runtime sample_bodies (os_exit 0).

(** ** Vocabulary of the further properties *)

(** [c in s] for a character [c]. *)
Fixpoint str_contains (c : ascii) (s : string) : bool :=
  match s with
  | EmptyString => false
  | String c' s' => Ascii.eqb c' c || str_contains c s'
  end.

Definition starts_with_space (s : string) : bool :=
  match s with
  | EmptyString => false
  | String c _ => isspace c
  end.

Fixpoint ends_with_space (s : string) : bool :=
  match s with
  | EmptyString => false
  | String c EmptyString => isspace c
  | String _ s' => ends_with_space s'
  end.

(** The number of processes started in a run of events. *)
Definition count_spawns (evs : list event) : nat := length (filter is_spawn evs).

(** The data of a plain-text notification. *)
Definition plain_text_data (body : string) : pydict :=
  [("title", PStr "Email AI Analysis"); ("message", PStr (strip body))].

Definition notified (message : pyval) : pyval :=
  PDict [("success", PBool true); ("action", PStr "notify"); ("message", message)].

Definition said (message : pyval) : pyval :=
  PDict [("success", PBool true); ("action", PStr "say"); ("message", message)].

Definition logged (message : pyval) : pyval :=
  PDict [("success", PBool true); ("action", PStr "log"); ("message", message)].

Section Lines.

Context {R : PyRuntime}.

(** The line printed when a body arrives. *)
Definition debug_line (body : string) : event :=
  Printed ("[DEBUG] Raw body received (" ++ str_of_nat (String.length body)
           ++ " bytes): " ++ str_take 500 body).

(** The line printed before dispatch, at the trace [t]. *)
Definition request_line (t : trace) (action message : string) : event :=
  Printed ("[" ++ timestamp t ++ "] " ++ str_upper action ++ ": "
           ++ str_take 100 message).

(** The line printed by the log handler. *)
Definition log_line (data : pydict) : event :=
  Printed ("LOG: " ++ json_dumps_indent (PDict data)).

End Lines.

(** The trace [t'] extends [t] by events with at most [k] process starts. *)
Definition extends_by_spawns (k : nat) (t t' : trace) : Prop :=
  exists evs, t' = (t ++ evs)%list /\ count_spawns evs <= k.

(** Characters of ASCII only. *)
Fixpoint ascii_only (s : string) : bool :=
  match s with
  | EmptyString => true
  | String c s' => (nat_of_ascii c <? 128)%nat && ascii_only s'
  end.

Definition nul : ascii := "000"%char.

Definition has_nul (cmd : cmdline) : bool :=
  match cmd with
  | Argv args => existsb (str_contains nul) args
  | Shell command => str_contains nul command
  end.

(** A machine on which every tool exits at once with 0; as everywhere,
    [subprocess.run] refuses a command that holds a NUL character with
    ValueError. *)
Definition os_refuses_nul : trace -> cmdline -> proc_behaviour :=
  fun _ cmd =>
    if has_nul cmd then Fails "ValueError"
    else Exits 0 0 EmptyString EmptyString.

(** The object with action = "sound" and a sound name that ends with the
    escape of the NUL character. *)
Definition body_sound_nul : string :=
  "{" ++ quoted "action" ++ ": " ++ quoted "sound" ++ ", "
  ++ quoted "sound" ++ ": " ++ quoted ("Glass" ++ str1 backslash ++ "u0000") ++ "}".

Definition data_sound_nul : pydict :=
  [("action", PStr "sound"); ("sound", PStr ("Glass" ++ str1 nul))].

(** * Properties *)

(** ** Strings: blank strings and [strip] *)

Lemma lstrip_blank (s : string) : blank (lstrip s) = blank s.
Proof.
  induction s as [|c s IH]; simpl; [reflexivity|].
  destruct (isspace c) eqn:Hc; simpl.
  - exact IH.
  - rewrite Hc. reflexivity.
Qed.

Lemma rstrip_empty (s : string) : rstrip s = EmptyString <-> blank s = true.
Proof.
  induction s as [|c s IH]; simpl.
  - tauto.
  - destruct (rstrip s) eqn:Hr.
    + destruct (isspace c); simpl.
      * split; intros _; [apply IH|]; reflexivity.
      * split; discriminate.
    + split; [discriminate|].
      intros H. apply andb_true_iff in H. destruct H as [_ H].
      apply IH in H. discriminate.
Qed.

Lemma strip_empty (s : string) : strip s = EmptyString <-> blank s = true.
Proof.
  unfold strip. rewrite rstrip_empty, lstrip_blank. tauto.
Qed.

Lemma is_empty_true (s : string) : is_empty s = true <-> s = EmptyString.
Proof. destruct s; simpl; split; congruence. Qed.

Lemma is_empty_false (s : string) : is_empty s = false <-> s <> EmptyString.
Proof. destruct s; simpl; split; congruence. Qed.

Lemma is_empty_strip (s : string) : is_empty (strip s) = blank s.
Proof.
  destruct (blank s) eqn:Hb.
  - apply is_empty_true, strip_empty, Hb.
  - apply is_empty_false. intros H. apply strip_empty in H. congruence.
Qed.

(** ** Dispatch *)

Section Dispatch.

Context {R : PyRuntime}.

Lemma registry_get_default (registry : list (string * handler)) (k : string)
  (default : handler) :
  ~ In k (map fst registry) -> registry_get registry k default = default.
Proof.
  induction registry as [|[k' h] registry IH]; simpl; intros Hk; [reflexivity|].
  destruct (String.eqb_spec k' k) as [->|Hne].
  - exfalso. apply Hk. now left.
  - apply IH. intros Hin. apply Hk. now right.
Qed.

Lemma registry_get_member (registry : list (string * handler)) (k : string)
  (default : handler) :
  In (registry_get registry k default) (default :: map snd registry).
Proof.
  induction registry as [|[k' h] registry IH]; simpl; [now left|].
  destruct (String.eqb k' k).
  - right. now left.
  - destruct IH as [IH|IH]; [now left|right; now right].
Qed.

(** C3.  Every action name resolves to one of the five handlers, and a name
    that is not registered resolves to the notify handler: the result of the
    unknown action "frobnicate" is the result of "notify" on the same message
    and data. *)
Theorem unknown_action_dispatches_to_notify (a : string) :
  (exists h : handler,
      In h [action_notify; action_sound; action_say; action_log; action_execute]
      /\ forall message data, handle_action (PStr a) message data = h message data)
  /\ (~ In a registered_names ->
      forall message data t,
        handle_action (PStr a) message data t = action_notify message data t)
  /\ (forall message data t,
        handle_action (PStr "frobnicate") message data t
        = handle_action (PStr "notify") message data t).
Proof.
  split; [|split].
  - exists (registry_get actions a action_notify). split; [|reflexivity].
    pose proof (registry_get_member actions a action_notify) as H.
    simpl in H. simpl. intuition.
  - intros Hn message data t. unfold handle_action.
    rewrite registry_get_default by exact Hn. reflexivity.
  - reflexivity.
Qed.

Lemma registered_names_lower (n : string) :
  In n registered_names -> str_lower n = n.
Proof.
  simpl. intros H.
  repeat (destruct H as [<-|H]; [reflexivity|]). contradiction.
Qed.

(** C10.  The registry is looked up by exact string equality: an action that
    is a registered name up to letter case, but not that name itself, is
    handled by the notify handler; so are "SOUND" and "Log". *)
Theorem action_names_are_case_sensitive (a n : string) :
  In n registered_names -> differs_by_case_only a n ->
  (forall message data t,
      handle_action (PStr a) message data t = action_notify message data t)
  /\ (forall message data t,
        handle_action (PStr "SOUND") message data t = action_notify message data t)
  /\ (forall message data t,
        handle_action (PStr "Log") message data t = action_notify message data t).
Proof.
  intros Hn [Hne Hlow]. split; [|split; reflexivity].
  intros message data t. unfold handle_action.
  rewrite registry_get_default; [reflexivity|].
  fold registered_names. intros Ha.
  apply registered_names_lower in Ha. apply registered_names_lower in Hn.
  congruence.
Qed.

End Dispatch.

(** The name "Execute" differs from the registered "execute" by case only. *)
Lemma action_names_are_case_sensitive_witness :
  In "execute" (@registered_names (table_runtime [] (os_exit 0)))
  /\ differs_by_case_only "Execute" "execute"
  /\ @handle_action (table_runtime [] (os_exit 0)) (PStr "Execute") (PStr "hi") [] []
     = @action_notify (table_runtime [] (os_exit 0)) (PStr "hi") [] [].
Proof.
  assert (Hin : In "execute" (@registered_names (table_runtime [] (os_exit 0))))
    by (simpl; tauto).
  assert (Hc : differs_by_case_only "Execute" "execute")
    by (split; [discriminate|reflexivity]).
  split; [exact Hin|split; [exact Hc|]].
  exact (proj1 (@action_names_are_case_sensitive (table_runtime [] (os_exit 0))
                  "Execute" "execute" Hin Hc) (PStr "hi") [] []).
Defined.

(** "frobnicate" is not registered. *)
Lemma unknown_action_dispatches_to_notify_witness :
  ~ In "frobnicate" (@registered_names (table_runtime [] (os_exit 0)))
  /\ @handle_action (table_runtime [] (os_exit 0)) (PStr "frobnicate") (PStr "hi") [] []
     = @action_notify (table_runtime [] (os_exit 0)) (PStr "hi") [] [].
Proof.
  assert (Hn : ~ In "frobnicate" (@registered_names (table_runtime [] (os_exit 0)))).
  { simpl. intros H.
    repeat (destruct H as [H|H]; [discriminate|]). contradiction. }
  split; [exact Hn|].
  exact (proj1 (proj2 (@unknown_action_dispatches_to_notify
                         (table_runtime [] (os_exit 0)) "frobnicate"))
           Hn (PStr "hi") [] []).
Defined.

(** ** The execute handler *)

Section Execute.

Context {R : PyRuntime}.

Lemma any_startswith_str (c : string) (prefixes : list string) (t : trace) :
  any_startswith (PStr c) prefixes t = (Ret (existsb (startswith c) prefixes), t).
Proof.
  induction prefixes as [|p prefixes IH]; simpl; [reflexivity|].
  unfold bind, ret. simpl. destruct (startswith c p); simpl; [reflexivity|exact IH].
Qed.

Lemma action_execute_str (message : pyval) (data : pydict) (c : string) (t : trace) :
  dict_get data "command" (PStr EmptyString) = PStr c ->
  action_execute message data t =
    if is_empty c then (Ret (failure "No command provided"), t)
    else if existsb (startswith c) allowed_prefixes then run_allowed c t
    else (Ret (failure "Command not allowed"), t).
Proof.
  intros Hc. unfold action_execute. rewrite Hc.
  cbn [py_truthy]. rewrite negb_involutive.
  destruct (is_empty c); [reflexivity|].
  unfold bind at 1. rewrite any_startswith_str.
  destruct (existsb (startswith c) allowed_prefixes); cbn [negb]; [|reflexivity].
  unfold run_allowed, try_except, subprocess_run_shell, subprocess_run,
    bind, get_trace, emit, ret, raise. cbn [timeout_expired].
  destruct (os_run t (Shell c)) as [millis rc out err|name]; cbn.
  - destruct (_ <? millis)%Z; cbn; [|reflexivity].
    rewrite <- app_assoc. reflexivity.
  - reflexivity.
Qed.

Lemma dict_get_present (d : pydict) (k : string) (v default : pyval) :
  dict_lookup d k = Some v -> dict_get d k default = v.
Proof. unfold dict_get. now intros ->. Qed.

Lemma dict_get_absent (d : pydict) (k : string) (default : pyval) :
  dict_lookup d k = None -> dict_get d k default = default.
Proof. unfold dict_get. now intros ->. Qed.

(** C1.  The execute action answers "No command provided" when the command
    is absent or empty and "Command not allowed" when the command string
    starts with none of the allowed prefixes, "rm -rf /" among them; in both
    cases the trace is left as it was: nothing is printed and no process is
    started. *)
Theorem execute_rejects_without_running (message : pyval) (data : pydict) (t : trace) :
  (dict_lookup data "command" = None
   \/ dict_lookup data "command" = Some (PStr EmptyString) ->
   handle_action (PStr "execute") message data t
   = (Ret (failure "No command provided"), t))
  /\ (forall c,
        dict_lookup data "command" = Some (PStr c) ->
        c <> EmptyString ->
        existsb (startswith c) allowed_prefixes = false ->
        handle_action (PStr "execute") message data t
        = (Ret (failure "Command not allowed"), t))
  /\ (dict_lookup data "command" = Some (PStr "rm -rf /") ->
      handle_action (PStr "execute") message data t
      = (Ret (failure "Command not allowed"), t)).
Proof.
  change (handle_action (PStr "execute") message data t)
    with (action_execute message data t).
  split; [|split].
  - intros [Hc|Hc].
    + rewrite (action_execute_str _ _ EmptyString); [reflexivity|].
      now apply dict_get_absent.
    + rewrite (action_execute_str _ _ EmptyString); [reflexivity|].
      now apply dict_get_present.
  - intros c Hc Hne Hp.
    rewrite (action_execute_str _ _ c), Hp by now apply dict_get_present.
    apply is_empty_false in Hne. rewrite Hne. reflexivity.
  - intros Hc.
    rewrite (action_execute_str _ _ "rm -rf /") by now apply dict_get_present.
    reflexivity.
Qed.

End Execute.

Lemma execute_rejects_without_running_witness :
  let R := table_runtime [] (os_exit 0) in
  let data := [("action", PStr "execute"); ("command", PStr "rm -rf /")] in
  dict_lookup data "command" = Some (PStr "rm -rf /")
  /\ handle_action (PStr "execute") (PStr "Webhook received") data []
     = (Ret (failure "Command not allowed"), []).
Proof.
  intros R data.
  assert (Hc : dict_lookup data "command" = Some (PStr "rm -rf /")) by reflexivity.
  split; [exact Hc|].
  exact (proj2 (proj2 (@execute_rejects_without_running R
                         (PStr "Webhook received") data [])) Hc).
Defined.

(** *** Outcomes of an allowed command *)

(** With a machine on which no process can be started, "open /tmp" neither
    times out nor reports an exit status: the handler answers with the text
    of the exception. *)
Lemma execute_times_out_or_completes_fails : ~ execute_times_out_or_completes.
Proof.
  intros claim.
  destruct (claim (table_runtime [] os_broken) PNone
              [("command", PStr "open /tmp")] "open /tmp" []
              eq_refl eq_refl) as [_ Hdone].
  destruct Hdone as (rc & out & err & H).
  - intros (millis & rc & out & err & Hrun & _). discriminate Hrun.
  - discriminate H.
Qed.

Section ExecuteOutcomes.

Context {R : PyRuntime}.

(** C6 (amended).  An allowed command is run through the shell with a limit
    of 30 seconds.  A child that runs longer is killed and the handler
    answers "Command timed out"; a child that exits within the limit yields
    its exit status and captured output; when [subprocess.run] raises any
    other exception the handler answers with the text of that exception. *)
Theorem execute_outcomes (message : pyval) (data : pydict) (c : string) (t : trace) :
  dict_lookup data "command" = Some (PStr c) ->
  existsb (startswith c) allowed_prefixes = true ->
  (forall millis rc out err,
      os_run t (Shell c) = Exits millis rc out err ->
      (30 * 1000 < millis)%Z ->
      action_execute message data t
      = (Ret (failure "Command timed out"),
         (t ++ [Spawn (Shell c); Killed (Shell c)])%list))
  /\ (forall millis rc out err,
        os_run t (Shell c) = Exits millis rc out err ->
        (millis <= 30 * 1000)%Z ->
        action_execute message data t
        = (Ret (executed rc out err), (t ++ [Spawn (Shell c)])%list))
  /\ (forall name,
        os_run t (Shell c) = Fails name ->
        action_execute message data t
        = (Ret (failure (exn_str (OtherException name))),
           (t ++ [Spawn (Shell c)])%list)).
Proof.
  intros Hc Hp.
  assert (Hne : is_empty c = false).
  { destruct c; [discriminate Hp|reflexivity]. }
  rewrite (action_execute_str _ _ c), Hne, Hp by now apply dict_get_present.
  unfold run_allowed.
  split; [|split].
  - intros millis rc out err -> Hlt.
    apply Z.ltb_lt in Hlt. rewrite Hlt. reflexivity.
  - intros millis rc out err -> Hle.
    apply Z.ltb_ge in Hle. rewrite Hle. reflexivity.
  - intros name ->. reflexivity.
Qed.

End ExecuteOutcomes.

(** A child that sleeps for 35 seconds. *)
Lemma execute_outcomes_witness :
  let R := table_runtime [] (os_slow 35000) in
  let data := [("command", PStr "open /tmp")] in
  dict_lookup data "command" = Some (PStr "open /tmp")
  /\ existsb (startswith "open /tmp") allowed_prefixes = true
  /\ action_execute PNone data []
     = (Ret (failure "Command timed out"),
        [Spawn (Shell "open /tmp"); Killed (Shell "open /tmp")]).
Proof.
  intros R data.
  assert (Hc : dict_lookup data "command" = Some (PStr "open /tmp")) by reflexivity.
  assert (Hp : existsb (startswith "open /tmp") allowed_prefixes = true)
    by reflexivity.
  split; [exact Hc|split; [exact Hp|]].
  refine (proj1 (@execute_outcomes R PNone data "open /tmp" [] Hc Hp)
            35000%Z 0%Z EmptyString EmptyString _ _).
  - reflexivity.
  - simpl. lia.
Defined.

(** ** The notify, sound and say handlers *)

(** With a machine on which no process can be started, the exception of the
    first playback tool is not a CalledProcessError and leaves the handler. *)
Lemma sound_always_reports_success_fails : ~ sound_always_reports_success.
Proof.
  intros claim.
  destruct (claim (table_runtime [] os_broken) (PStr "ping") [] []) as [t' H].
  discriminate H.
Qed.

Section Tools.

Context {R : PyRuntime}.

Lemma subprocess_run_untimed (cmd : cmdline) (check : bool) (t : trace) :
  subprocess_run cmd check None t =
    match os_run t cmd with
    | Exits _ rc out err =>
        if check && negb (rc =? 0)%Z
        then (Raise (CalledProcessError rc cmd), (t ++ [Spawn cmd])%list)
        else (Ret {| returncode := rc; stdout := out; stderr := err |},
              (t ++ [Spawn cmd])%list)
    | Fails name => (Raise (OtherException name), (t ++ [Spawn cmd])%list)
    end.
Proof.
  unfold subprocess_run, bind, get_trace, emit, ret, raise. cbn.
  destruct (os_run t cmd) as [millis rc out err|name]; [|reflexivity].
  destruct (check && negb (rc =? 0)%Z); reflexivity.
Qed.

(** X20.  Whenever the playback tools can be run, a sound request reports
    success whatever their exit status: if the first tool exits with 0
    nothing else is started; if it exits with another status the second
    tool is run, and its exit status is not looked at. *)
Theorem sound_ignores_exit_status (message : pyval) (data : pydict) (t : trace)
  (millis rc : Z) (out err : string) :
  os_run t (osascript_sound data) = Exits millis rc out err ->
  (rc = 0%Z ->
   action_sound message data t
   = (Ret (played data), (t ++ [Spawn (osascript_sound data)])%list))
  /\ (rc <> 0%Z ->
      forall millis' rc' out' err',
        os_run (t ++ [Spawn (osascript_sound data)])%list (afplay_sound data)
        = Exits millis' rc' out' err' ->
        action_sound message data t
        = (Ret (played data),
           (t ++ [Spawn (osascript_sound data); Spawn (afplay_sound data)])%list)).
Proof.
  intros Hrun. unfold action_sound, try_except, bind, subprocess_run_argv.
  cbn [argv_strs option_map]. rewrite subprocess_run_untimed.
  fold (osascript_sound data). rewrite Hrun. split.
  - intros ->. reflexivity.
  - intros Hrc millis' rc' out' err' Hrun'.
    apply Z.eqb_neq in Hrc. rewrite Hrc.
    unfold on_CalledProcessError.
    cbn [andb negb is_CalledProcessError].
    rewrite subprocess_run_untimed. fold (afplay_sound data). rewrite Hrun'.
    cbn. rewrite <- app_assoc. reflexivity.
Qed.

Lemma action_notify_returns (message : pyval) (data : pydict) (t t' : trace)
  (r : pyval) :
  action_notify message data t = (Ret r, t') ->
  exists m title rc,
    message = PStr m
    /\ dict_get data "title" (PStr "ActivePieces") = PStr title
    /\ t' = (t ++ [Spawn (osascript_notify m title data)])%list
    /\ (r = PDict [("success", PBool true); ("action", PStr "notify");
                   ("message", message)]
        \/ r = failure (exn_str (CalledProcessError rc (osascript_notify m title data)))).
Proof.
  unfold action_notify, try_except, bind, subprocess_run_argv.
  destruct message as [| | | |m| |]; try discriminate.
  destruct (dict_get data "title" (PStr "ActivePieces")) as [| | | |title| |];
    try discriminate.
  cbn [py_replace ret argv_strs option_map].
  rewrite subprocess_run_untimed. fold (notify_clean m).
  fold (osascript_notify m title data).
  destruct (os_run t (osascript_notify m title data)) as [millis rc out err|name];
    [|discriminate].
  intros H. exists m, title, rc. split; [reflexivity|split; [reflexivity|]].
  destruct (rc =? 0)%Z; cbn in H; inversion H; subst; auto.
Qed.

Lemma action_say_returns (message : pyval) (data : pydict) (t t' : trace)
  (r : pyval) :
  action_say message data t = (Ret r, t') ->
  exists m voice rc,
    message = PStr m
    /\ dict_get data "voice" (PStr "Samantha") = PStr voice
    /\ t' = (t ++ [Spawn (say_command m voice)])%list
    /\ (r = PDict [("success", PBool true); ("action", PStr "say");
                   ("message", message)]
        \/ r = failure (exn_str (CalledProcessError rc (say_command m voice)))).
Proof.
  unfold action_say, try_except, bind, subprocess_run_argv.
  destruct message as [| | | |m| |]; try discriminate.
  cbn [py_replace ret argv_strs option_map].
  destruct (dict_get data "voice" (PStr "Samantha")) as [| | | |voice| |];
    try discriminate.
  cbn [option_map]. rewrite subprocess_run_untimed.
  fold (say_clean m). fold (say_command m voice).
  destruct (os_run t (say_command m voice)) as [millis rc out err|name];
    [|discriminate].
  intros H. exists m, voice, rc. split; [reflexivity|split; [reflexivity|]].
  destruct (rc =? 0)%Z; cbn in H; inversion H; subst; auto.
Qed.

End Tools.

(** The first tool exits with status 1, the second one with status 1 too. *)
Lemma sound_ignores_exit_status_witness :
  let R := table_runtime [] (os_exit 1) in
  os_run [] (osascript_sound []) = Exits 0 1 EmptyString EmptyString
  /\ action_sound (PStr "ping") [] []
     = (Ret (played []), [Spawn (osascript_sound []); Spawn (afplay_sound [])]).
Proof.
  intros R.
  assert (Hrun : os_run [] (osascript_sound []) = Exits 0 1 EmptyString EmptyString)
    by reflexivity.
  split; [exact Hrun|].
  refine (proj2 (@sound_ignores_exit_status R (PStr "ping") [] [] _ _ _ _ Hrun)
            _ 0%Z 1%Z EmptyString EmptyString _).
  - discriminate.
  - reflexivity.
Defined.

(** ** Shape of the Action Result *)

(** An execute request without a command is answered by a result that has
    no action field. *)
Lemma every_result_names_its_action_fails : ~ every_result_names_its_action.
Proof.
  intros claim.
  destruct (claim (table_runtime [] (os_exit 0)) (PStr "execute")
              (PStr "Webhook received") [] [] []
              (failure "No command provided") eq_refl) as [_ [a Ha]].
  discriminate Ha.
Qed.

Section Results.

Context {R : PyRuntime}.

Lemma action_sound_returns (message : pyval) (data : pydict) (t t' : trace)
  (r : pyval) :
  action_sound message data t = (Ret r, t') -> r = played data.
Proof.
  unfold action_sound, try_except, bind, subprocess_run_argv, on_CalledProcessError.
  cbn [argv_strs option_map]. rewrite subprocess_run_untimed.
  destruct (os_run t _) as [millis rc out err|name]; [|discriminate].
  destruct (rc =? 0)%Z; cbn [andb negb is_CalledProcessError].
  - intros H. inversion H. reflexivity.
  - rewrite subprocess_run_untimed.
    destruct (os_run _ _) as [millis' rc' out' err'|name]; [|discriminate].
    cbn. intros H. inversion H. reflexivity.
Qed.

Lemma action_log_returns (message : pyval) (data : pydict) (t t' : trace)
  (r : pyval) :
  action_log message data t = (Ret r, t') ->
  r = PDict [("success", PBool true); ("action", PStr "log"); ("message", message)].
Proof.
  unfold action_log, bind, print, emit, ret. intros H. inversion H. reflexivity.
Qed.

(** A handler that returned [failure e]. *)
Ltac returned_failure :=
  let H := fresh in intros H; inversion H; left; eexists; reflexivity.

Lemma action_execute_returns (message : pyval) (data : pydict) (t t' : trace)
  (r : pyval) :
  action_execute message data t = (Ret r, t') ->
  (exists e, r = failure e) \/ (exists rc out err, r = executed rc out err).
Proof.
  destruct (dict_get data "command" (PStr EmptyString)) as [| b | z | f | c | l | d] eqn:Hc.
  1-4, 6-7: unfold action_execute; rewrite Hc;
    destruct (negb (py_truthy _));
    [ returned_failure | discriminate ].
  rewrite (action_execute_str _ _ _ _ Hc). unfold run_allowed.
  destruct (is_empty c).
  { returned_failure. }
  destruct (existsb (startswith c) allowed_prefixes).
  2: { returned_failure. }
  destruct (os_run t (Shell c)) as [millis rc out err|name].
  - destruct (_ <? millis)%Z; intros H; inversion H.
    + left; eexists; reflexivity.
    + right. now exists rc, out, err.
  - returned_failure.
Qed.

(** C8 (amended).  Every Action Result has a boolean success field and is
    of one of three kinds.  With success = true it has a string action field
    that names a handler and no error field.  With success = false it is
    either the result of an executed command that exited with another status
    than 0, which holds the action "execute" and the captured output, or an
    error result, which holds exactly success = false and a string error
    field, hence no action field; an error result never comes from the sound
    or the log action. *)
Theorem action_result_shape (action message : pyval) (data : pydict)
  (t t' : trace) (r : pyval) :
  handle_action action message data t = (Ret r, t') ->
  (exists a,
      In a ["notify"; "sound"; "say"; "log"; "execute"]
      /\ result_field r "success" = Some (PBool true)
      /\ result_field r "action" = Some (PStr a)
      /\ result_field r "error" = None)
  \/ (exists out err,
        r = PDict [("success", PBool false); ("action", PStr "execute");
                   ("stdout", PStr out); ("stderr", PStr err)])
  \/ (exists e,
        r = PDict [("success", PBool false); ("error", PStr e)]
        /\ action <> PStr "sound" /\ action <> PStr "log").
Proof.
  assert (Hnotify : forall t0 t1 r0,
            action_notify message data t0 = (Ret r0, t1) ->
            action <> PStr "sound" -> action <> PStr "log" ->
            (exists a,
                In a ["notify"; "sound"; "say"; "log"; "execute"]
                /\ result_field r0 "success" = Some (PBool true)
                /\ result_field r0 "action" = Some (PStr a)
                /\ result_field r0 "error" = None)
            \/ (exists out err,
                  r0 = PDict [("success", PBool false); ("action", PStr "execute");
                              ("stdout", PStr out); ("stderr", PStr err)])
            \/ (exists e,
                  r0 = PDict [("success", PBool false); ("error", PStr e)]
                  /\ action <> PStr "sound" /\ action <> PStr "log")).
  { intros t0 t1 r0 H Hs Hl. apply action_notify_returns in H.
    destruct H as (m & title & rc & _ & _ & _ & [->| ->]).
    - left. exists "notify". simpl. tauto.
    - right. right. eexists. split; [reflexivity|]. split; assumption. }
  destruct action as [| b | z | f | a | l | d]; cbn [handle_action];
    try (intros H; apply (Hnotify _ _ _ H); discriminate); try discriminate.
  unfold actions. cbn [registry_get].
  destruct (String.eqb_spec "notify" a) as [<-|Hn1];
    [intros H; apply (Hnotify _ _ _ H); discriminate|].
  destruct (String.eqb_spec "notification" a) as [<-|Hn2];
    [intros H; apply (Hnotify _ _ _ H); discriminate|].
  destruct (String.eqb_spec "sound" a) as [<-|Hn3].
  { intros H. apply action_sound_returns in H. subst r.
    left. exists "sound". simpl. tauto. }
  destruct (String.eqb_spec "say" a) as [<-|Hn4].
  { intros H. apply action_say_returns in H.
    destruct H as (m & voice & rc & _ & _ & _ & [->| ->]).
    - left. exists "say". simpl. tauto.
    - right. right. eexists. split; [reflexivity|]. split; discriminate. }
  destruct (String.eqb_spec "log" a) as [<-|Hn5].
  { intros H. apply action_log_returns in H. subst r.
    left. exists "log". simpl. tauto. }
  destruct (String.eqb_spec "execute" a) as [<-|Hn6].
  { intros H. apply action_execute_returns in H.
    destruct H as [[e ->]|(rc & out & err & ->)].
    - right. right. exists e. split; [reflexivity|]. split; discriminate.
    - unfold executed. destruct (rc =? 0)%Z.
      + left. exists "execute". simpl. tauto.
      + right. left. now exists out, err. }
  intros H. apply (Hnotify _ _ _ H); intros Heq; inversion Heq; congruence.
Qed.

(** C9.  A successful notify or say result carries the message it was given,
    unchanged; the cleaned copy ([notify_clean], [say_clean]) only appears
    in the command line of the tool that was started. *)
Theorem success_returns_message_verbatim (message : pyval) (data : pydict)
  (t t' : trace) (r : pyval) :
  result_field r "success" = Some (PBool true) ->
  (action_notify message data t = (Ret r, t') ->
   result_field r "message" = Some message
   /\ exists m title,
       message = PStr m
       /\ dict_get data "title" (PStr "ActivePieces") = PStr title
       /\ t' = (t ++ [Spawn (Argv ["osascript"; "-e";
                   notify_script (notify_clean m)
                     (replace dquote (str1 squote) title)
                     (dict_get data "sound" (PStr "Glass"))])])%list)
  /\ (action_say message data t = (Ret r, t') ->
      result_field r "message" = Some message
      /\ exists m voice,
          message = PStr m
          /\ dict_get data "voice" (PStr "Samantha") = PStr voice
          /\ t' = (t ++ [Spawn (Argv ["say"; "-v"; voice; say_clean m])])%list).
Proof.
  intros Hok. split; intros H.
  - apply action_notify_returns in H.
    destruct H as (m & title & rc & Hm & Htitle & Ht & [->| ->]);
      [|discriminate Hok].
    split; [reflexivity|]. now exists m, title.
  - apply action_say_returns in H.
    destruct H as (m & voice & rc & Hm & Hvoice & Ht & [->| ->]);
      [|discriminate Hok].
    split; [reflexivity|]. now exists m, voice.
Qed.

End Results.

(** An execute request without a command. *)
Lemma action_result_shape_witness :
  let R := table_runtime [] (os_exit 0) in
  let r := PDict [("success", PBool false); ("error", PStr "No command provided")] in
  handle_action (PStr "execute") (PStr "x") [] [] = (Ret r, [])
  /\ result_field r "success" = Some (PBool false)
  /\ result_field r "action" = None.
Proof.
  intros R r.
  assert (H : handle_action (PStr "execute") (PStr "x") [] [] = (Ret r, []))
    by reflexivity.
  split; [exact H|].
  destruct (@action_result_shape R (PStr "execute") (PStr "x") [] [] [] r H)
    as [(a & _ & Hok & _)|[(out & err & Hr)|(e & Hr & _)]].
  - discriminate Hok.
  - discriminate Hr.
  - rewrite Hr. split; reflexivity.
Defined.

(** A message in double quotes: the tool is handed single quotes, the caller
    gets the double quotes back. *)
Lemma success_returns_message_verbatim_witness :
  let R := table_runtime [] (os_exit 0) in
  let m := String dquote (String "h" (String "i" (String dquote EmptyString))) in
  let r := PDict [("success", PBool true); ("action", PStr "say");
                  ("message", PStr m)] in
  let t' := [Spawn (Argv ["say"; "-v"; "Samantha"; "'hi'"])] in
  result_field r "success" = Some (PBool true)
  /\ action_say (PStr m) [] [] = (Ret r, t')
  /\ result_field r "message" = Some (PStr m).
Proof.
  intros R m r t'.
  assert (Hok : result_field r "success" = Some (PBool true)) by reflexivity.
  assert (H : action_say (PStr m) [] [] = (Ret r, t')) by reflexivity.
  split; [exact Hok|split; [exact H|]].
  exact (proj1 (proj2 (@success_returns_message_verbatim R (PStr m) [] [] t' r Hok) H)).
Defined.

(** ** Request parsing *)

(** The empty body is never handed to the JSON parser: it stands for the
    empty object, and its message is "Webhook received". *)
Lemma failed_parse_is_plain_text_fails : ~ failed_parse_is_plain_text.
Proof.
  intros claim.
  specialize (claim (table_runtime [] (os_exit 0)) EmptyString [] (or_introl eq_refl)).
  discriminate claim.
Qed.

Section Parsing.

Context {R : PyRuntime}.

Lemma parse_body_dict (body : string) (d : pydict) (t : trace) :
  body <> EmptyString -> json_loads body = Some (PDict d) ->
  parse_body body t =
    (Ret {| env_action := dict_get d "action" (PStr "notify");
            env_message := extract_message d;
            env_data := d |}, t).
Proof.
  intros Hne Hj. apply is_empty_false in Hne.
  unfold parse_body, load_body. rewrite Hne, Hj. reflexivity.
Qed.

Lemma parse_body_rejected (body : string) (t : trace) :
  json_loads body = None ->
  parse_body body t =
    if blank body then (Ret default_envelope, t)
    else (Ret (plain_text_envelope body), t).
Proof.
  intros Hj. unfold parse_body, load_body.
  destruct (is_empty body) eqn:He.
  - apply is_empty_true in He. subst body. reflexivity.
  - rewrite Hj. cbn [negb andb]. rewrite is_empty_strip.
    destruct (blank body); reflexivity.
Qed.

(** C4 (amended).  A body that the JSON parser rejects and that holds more
    than white space is a plain-text notification: action "notify", the
    stripped body as message, and the title "Email AI Analysis" with that
    message as data.  The empty body, and a rejected body of white space
    only, are treated as the empty JSON object: action "notify", message
    "Webhook received", no data. *)
Theorem plain_text_envelope_of_rejected_body (body : string) (t : trace) :
  (json_loads body = None -> strip body <> EmptyString ->
   parse_body body t = (Ret (plain_text_envelope body), t))
  /\ (body = EmptyString \/ (json_loads body = None /\ strip body = EmptyString) ->
      parse_body body t = (Ret default_envelope, t)).
Proof.
  split.
  - intros Hj Hs. rewrite (parse_body_rejected _ _ Hj).
    destruct (blank body) eqn:Hb; [|reflexivity].
    apply strip_empty in Hb. contradiction.
  - intros [->|[Hj Hs]]; [reflexivity|].
    rewrite (parse_body_rejected _ _ Hj).
    apply strip_empty in Hs. rewrite Hs. reflexivity.
Qed.

Lemma first_present_3 (d : pydict) (k1 k2 k3 : string) (default : pyval) :
  dict_get d k1 (dict_get d k2 (dict_get d k3 default))
  = match first_present d [k1; k2; k3] with
    | Some v => v
    | None => default
    end.
Proof.
  unfold dict_get. simpl.
  destruct (dict_lookup d k1); [reflexivity|].
  destruct (dict_lookup d k2); [reflexivity|].
  destruct (dict_lookup d k3); reflexivity.
Qed.

(** C5.  For a body that parses to a JSON object [d]: the raw message is the
    value of the first key present among message, text, raw, and "Webhook
    received" when none is; a raw message that is a mapping is replaced by
    the value of its first key present among result, text, content, and by
    its JSON serialization when none is; a raw message that is an empty or
    blank string is replaced by "No message content", any other string is
    kept; the action is the value of the action key, and "notify" when the
    key is absent.  The object with text = "hi" has message "hi"; the object
    whose message is the mapping with result = "r" has message "r". *)
Theorem json_envelope_extraction (body : string) (d : pydict) (t : trace) :
  body <> EmptyString -> json_loads body = Some (PDict d) ->
  exists env,
    parse_body body t = (Ret env, t)
    /\ env_data env = d
    /\ env_action env
       = match dict_lookup d "action" with Some a => a | None => PStr "notify" end
    /\ (first_present d ["message"; "text"; "raw"] = None ->
        env_message env = PStr "Webhook received")
    /\ (forall m, first_present d ["message"; "text"; "raw"] = Some (PDict m) ->
        env_message env
        = match first_present m ["result"; "text"; "content"] with
          | Some v => v
          | None => PStr (json_dumps (PDict m))
          end)
    /\ (forall s, first_present d ["message"; "text"; "raw"] = Some (PStr s) ->
        env_message env = if blank s then PStr "No message content" else PStr s)
    /\ (d = [("text", PStr "hi")] -> env_message env = PStr "hi")
    /\ (d = [("message", PDict [("result", PStr "r")])] ->
        env_message env = PStr "r").
Proof.
  intros Hne Hj. eexists. split; [exact (parse_body_dict _ _ _ Hne Hj)|].
  cbn [env_data env_action env_message].
  split; [reflexivity|]. split; [reflexivity|].
  unfold extract_message. rewrite first_present_3.
  repeat split.
  - intros ->. reflexivity.
  - intros m ->. apply first_present_3.
  - intros s ->. rewrite is_empty_strip. destruct (blank s); reflexivity.
  - intros ->. reflexivity.
  - intros ->. reflexivity.
Qed.

(** C2.  A request whose body is valid JSON makes the handler raise, and no
    response is written, when the body is not an object, when the action
    key holds anything but a string, or when the action is "execute" and the
    command key holds a non-empty value that is not a string. *)
Theorem post_raises_on_unexpected_types (body : string) (v : pyval) (t : trace) :
  body <> EmptyString -> json_loads body = Some v ->
  (forall d, v <> PDict d)
  \/ (exists d a, v = PDict d /\ dict_lookup d "action" = Some a
                  /\ forall s, a <> PStr s)
  \/ (exists d c, v = PDict d /\ dict_lookup d "action" = Some (PStr "execute")
                  /\ dict_lookup d "command" = Some c
                  /\ py_truthy c = true /\ forall s, c <> PStr s) ->
  exists e t', do_POST body t = (Raise e, t').
Proof.
  intros Hne Hj Hshape.
  unfold do_POST, post_result, bind at 1 2 3, print, emit.
  destruct Hshape as [Hnd|[(d & a & -> & Ha & Hns)|(d & c & -> & Ha & Hc & Hct & Hns)]].
  - exists AttributeError. eexists.
    apply is_empty_false in Hne.
    unfold parse_body, load_body. rewrite Hne, Hj. cbn [negb andb].
    destruct v; try reflexivity. exfalso. now apply (Hnd d).
  - exists AttributeError. eexists.
    rewrite (parse_body_dict _ _ _ Hne Hj). cbn [env_action env_message env_data].
    rewrite (dict_get_present _ _ _ _ Ha).
    unfold log_request, bind, get_trace.
    destruct a; try reflexivity. exfalso. now apply (Hns s).
  - rewrite (parse_body_dict _ _ _ Hne Hj). cbn [env_action env_message env_data].
    rewrite (dict_get_present _ _ _ _ Ha).
    unfold log_request, bind, get_trace, py_upper, ret, print, emit.
    destruct (py_slice_to 100 (extract_message d) _) as [[head|e] t1] eqn:Hs.
    + exists AttributeError. eexists.
      change (handle_action (PStr "execute")) with action_execute.
      unfold action_execute. rewrite (dict_get_present _ _ _ _ Hc), Hct.
      cbn [negb]. unfold bind.
      destruct c; try reflexivity. exfalso. now apply (Hns s).
    + exists e. eexists. reflexivity.
Qed.

End Parsing.

(** A line of text with white space around it. *)
Lemma plain_text_envelope_of_rejected_body_witness :
  let R := sample_runtime in
  json_loads "  disk almost full " = None
  /\ strip "  disk almost full " <> EmptyString
  /\ parse_body "  disk almost full " []
     = (Ret {| env_action := PStr "notify";
               env_message := PStr "disk almost full";
               env_data := [("title", PStr "Email AI Analysis");
                            ("message", PStr "disk almost full")] |}, []).
Proof.
  intros R.
  assert (Hj : json_loads "  disk almost full " = None) by reflexivity.
  assert (Hs : strip "  disk almost full " <> EmptyString) by discriminate.
  split; [exact Hj|split; [exact Hs|]].
  exact (proj1 (@plain_text_envelope_of_rejected_body R "  disk almost full " [])
           Hj Hs).
Defined.

Lemma json_envelope_extraction_witness :
  let R := sample_runtime in
  body_text_hi <> EmptyString
  /\ json_loads body_text_hi = Some (PDict [("text", PStr "hi")])
  /\ exists env,
      parse_body body_text_hi [] = (Ret env, [])
      /\ env_action env = PStr "notify"
      /\ env_message env = PStr "hi".
Proof.
  intros R.
  assert (Hne : body_text_hi <> EmptyString) by discriminate.
  assert (Hj : json_loads body_text_hi = Some (PDict [("text", PStr "hi")]))
    by reflexivity.
  split; [exact Hne|split; [exact Hj|]].
  destruct (@json_envelope_extraction R body_text_hi [("text", PStr "hi")] [] Hne Hj)
    as (env & Hp & _ & Ha & _ & _ & _ & Hhi & _).
  exists env. split; [exact Hp|split; [exact Ha|exact (Hhi eq_refl)]].
Defined.

Lemma post_raises_on_unexpected_types_witness :
  let R := sample_runtime in
  body_action_5 <> EmptyString
  /\ json_loads body_action_5 = Some (PDict [("action", PInt 5)])
  /\ exists e t', do_POST body_action_5 [] = (Raise e, t').
Proof.
  intros R.
  assert (Hne : body_action_5 <> EmptyString) by discriminate.
  assert (Hj : json_loads body_action_5 = Some (PDict [("action", PInt 5)]))
    by reflexivity.
  split; [exact Hne|split; [exact Hj|]].
  apply (@post_raises_on_unexpected_types R body_action_5
           (PDict [("action", PInt 5)]) [] Hne Hj).
  right. left. exists [("action", PInt 5)], (PInt 5).
  split; [reflexivity|split; [reflexivity|discriminate]].
Defined.

(** The two requests run to the end: the first stops at [action.upper()],
    the second at [command.startswith] inside the execute handler, after the
    request has been logged. *)
Example do_POST_action_5 :
  @do_POST sample_runtime body_action_5 []
  = (Raise AttributeError,
     [Printed ("[DEBUG] Raw body received (13 bytes): " ++ body_action_5)]).
Proof. reflexivity. Qed.

Example do_POST_execute_5 :
  @do_POST sample_runtime body_execute_5 []
  = (Raise AttributeError,
     [Printed ("[DEBUG] Raw body received (35 bytes): " ++ body_execute_5);
      Printed "[2025-01-01 00:00:00] execute: Webhook received"]).
Proof. reflexivity. Qed.

(** The request that asks for "rm -rf /" is logged and refused: the trace
    holds the two printed lines and no process. *)
Example post_result_execute_rm :
  @post_result sample_runtime body_execute_rm []
  = (Ret (failure "Command not allowed"),
     [Printed ("[DEBUG] Raw body received (44 bytes): " ++ body_execute_rm);
      Printed "[2025-01-01 00:00:00] execute: Webhook received"]).
Proof. reflexivity. Qed.

(** A body of white space only is no plain-text notification. *)
Example parse_body_white_space :
  @parse_body sample_runtime "   " [] = (Ret default_envelope, []).
Proof. reflexivity. Qed.

(** * Further properties of the listener *)

(** ** Characters of a cleaned string *)

Lemma str_contains_app (c : ascii) (a b : string) :
  str_contains c (a ++ b) = str_contains c a || str_contains c b.
Proof.
  induction a as [|x a IH]; simpl; [reflexivity|].
  rewrite IH. apply orb_assoc.
Qed.

Lemma replace_removes_old (old : ascii) (new s : string) :
  str_contains old new = false -> str_contains old (replace old new s) = false.
Proof.
  intros Hnew. induction s as [|x s IH]; simpl; [reflexivity|].
  destruct (Ascii.eqb x old) eqn:Hx.
  - rewrite str_contains_app, Hnew, IH. reflexivity.
  - simpl. rewrite Hx, IH. reflexivity.
Qed.

Lemma replace_adds_nothing (c old : ascii) (new s : string) :
  str_contains c new = false -> str_contains c s = false ->
  str_contains c (replace old new s) = false.
Proof.
  intros Hnew. induction s as [|x s IH]; simpl; [reflexivity|].
  intros Hs. apply orb_false_iff in Hs. destruct Hs as [Hx Hs].
  destruct (Ascii.eqb x old).
  - rewrite str_contains_app, Hnew, IH by exact Hs. reflexivity.
  - simpl. rewrite Hx, IH by exact Hs. reflexivity.
Qed.

Lemma replace_absent (old : ascii) (new s : string) :
  str_contains old s = false -> replace old new s = s.
Proof.
  induction s as [|x s IH]; simpl; [reflexivity|].
  intros Hs. apply orb_false_iff in Hs. destruct Hs as [Hx Hs].
  rewrite Hx, IH by exact Hs. reflexivity.
Qed.

Lemma replace_one_length (old c : ascii) (s : string) :
  String.length (replace old (str1 c) s) = String.length s.
Proof.
  induction s as [|x s IH]; simpl; [reflexivity|].
  destruct (Ascii.eqb x old); simpl; now rewrite IH.
Qed.

Lemma notify_clean_chars (m : string) :
  str_contains dquote (notify_clean m) = false
  /\ str_contains backslash (notify_clean m) = false
  /\ str_contains newline (notify_clean m) = false.
Proof.
  unfold notify_clean. repeat split.
  - apply replace_adds_nothing; [reflexivity|].
    apply replace_adds_nothing; [reflexivity|].
    apply replace_removes_old. reflexivity.
  - apply replace_adds_nothing; [reflexivity|].
    apply replace_removes_old. reflexivity.
  - apply replace_removes_old. reflexivity.
Qed.

Section CleanedArguments.

Context {R : PyRuntime}.

(** X1.  Whenever the notify handler returns, it has started exactly one
    process, osascript, and the message and the title inside the script are
    clean: the message holds no double quote, no backslash and no newline,
    the title no double quote. *)
Theorem notify_script_parts_are_clean (message : pyval) (data : pydict)
  (t t' : trace) (r : pyval) :
  action_notify message data t = (Ret r, t') ->
  exists clean_msg clean_title,
    t' = (t ++ [Spawn (Argv ["osascript"; "-e";
                   notify_script clean_msg clean_title
                     (dict_get data "sound" (PStr "Glass"))])])%list
    /\ str_contains dquote clean_msg = false
    /\ str_contains backslash clean_msg = false
    /\ str_contains newline clean_msg = false
    /\ str_contains dquote clean_title = false.
Proof.
  intros H. apply action_notify_returns in H.
  destruct H as (m & title & rc & _ & _ & Ht & _).
  exists (notify_clean m), (replace dquote (str1 squote) title).
  split; [exact Ht|].
  destruct (notify_clean_chars m) as (H1 & H2 & H3).
  repeat split; try assumption.
  apply replace_removes_old. reflexivity.
Qed.

(** X2.  Whenever the say handler returns, it has started exactly one
    process, say, with the voice of the data (default "Samantha") and, as
    last argument, the message with every double quote replaced by a single
    quote: that argument holds no double quote and is as long as the
    message. *)
Theorem say_argument_is_clean (message : pyval) (data : pydict)
  (t t' : trace) (r : pyval) :
  action_say message data t = (Ret r, t') ->
  exists m voice,
    message = PStr m
    /\ dict_get data "voice" (PStr "Samantha") = PStr voice
    /\ t' = (t ++ [Spawn (Argv ["say"; "-v"; voice;
                                replace dquote (str1 squote) m])])%list
    /\ str_contains dquote (replace dquote (str1 squote) m) = false
    /\ String.length (replace dquote (str1 squote) m) = String.length m.
Proof.
  intros H. apply action_say_returns in H.
  destruct H as (m & voice & rc & Hm & Hv & Ht & _).
  exists m, voice. repeat split; try assumption.
  - apply replace_removes_old. reflexivity.
  - apply replace_one_length.
Qed.

End CleanedArguments.

(** X3.  Cleaning a message for the notification is idempotent, and a
    message without double quote, backslash and newline is left as it is. *)
Theorem notify_clean_idempotent (m : string) :
  notify_clean (notify_clean m) = notify_clean m
  /\ (str_contains dquote m = false -> str_contains backslash m = false ->
      str_contains newline m = false -> notify_clean m = m).
Proof.
  assert (Hfix : forall x, str_contains dquote x = false ->
                           str_contains backslash x = false ->
                           str_contains newline x = false -> notify_clean x = x).
  { intros x Hd Hb Hn. unfold notify_clean.
    rewrite (replace_absent dquote) by exact Hd.
    rewrite (replace_absent backslash) by exact Hb.
    apply replace_absent, Hn. }
  split; [|apply Hfix].
  destruct (notify_clean_chars m) as (H1 & H2 & H3). now apply Hfix.
Qed.

(** A message with a quoted word, a backslash and a line break. *)
Lemma notify_script_parts_are_clean_witness :
  let R := sample_runtime in
  let m := "say " ++ quoted "hi" ++ str1 backslash ++ str1 newline ++ "bye" in
  let t' := [Spawn (Argv ["osascript"; "-e";
                          notify_script "say 'hi' bye" "ActivePieces" (PStr "Glass")])] in
  action_notify (PStr m) [] [] = (Ret (notified (PStr m)), t')
  /\ exists clean_msg clean_title,
      t' = [Spawn (Argv ["osascript"; "-e";
                         notify_script clean_msg clean_title (PStr "Glass")])]
      /\ str_contains dquote clean_msg = false
      /\ str_contains backslash clean_msg = false
      /\ str_contains newline clean_msg = false
      /\ str_contains dquote clean_title = false.
Proof.
  intros R m t'.
  assert (H : action_notify (PStr m) [] [] = (Ret (notified (PStr m)), t'))
    by reflexivity.
  split; [exact H|].
  exact (@notify_script_parts_are_clean R (PStr m) [] [] t' _ H).
Defined.

Lemma say_argument_is_clean_witness :
  let R := sample_runtime in
  let m := quoted "hi" in
  let t' := [Spawn (Argv ["say"; "-v"; "Samantha"; "'hi'"])] in
  action_say (PStr m) [] [] = (Ret (said (PStr m)), t')
  /\ exists m0 voice,
      PStr m = PStr m0
      /\ dict_get [] "voice" (PStr "Samantha") = PStr voice
      /\ t' = [Spawn (Argv ["say"; "-v"; voice; replace dquote (str1 squote) m0])]
      /\ str_contains dquote (replace dquote (str1 squote) m0) = false
      /\ String.length (replace dquote (str1 squote) m0) = String.length m0.
Proof.
  intros R m t'.
  assert (H : action_say (PStr m) [] [] = (Ret (said (PStr m)), t'))
    by reflexivity.
  split; [exact H|].
  exact (@say_argument_is_clean R (PStr m) [] [] t' _ H).
Defined.

Lemma notify_clean_idempotent_witness :
  str_contains dquote "disk almost full" = false
  /\ notify_clean "disk almost full" = "disk almost full".
Proof.
  split; [reflexivity|].
  exact (proj2 (notify_clean_idempotent "disk almost full")
           eq_refl eq_refl eq_refl).
Defined.

(** ** More on the execute handler *)

Lemma prefix_app (p rest : string) : String.prefix p (p ++ rest) = true.
Proof.
  induction p as [|c p IH]; simpl.
  - destruct rest; reflexivity.
  - destruct (ascii_dec c c) as [_|Hne]; [exact IH|now elim Hne].
Qed.

Lemma prefix_contains (x : ascii) (p s : string) :
  String.prefix p s = true -> str_contains x p = true -> str_contains x s = true.
Proof.
  revert s. induction p as [|c p IH]; intros s Hp Hx; [discriminate Hx|].
  destruct s as [|c' s]; [discriminate Hp|].
  simpl in Hp. destruct (ascii_dec c c') as [->|]; [|discriminate Hp].
  simpl in *. destruct (Ascii.eqb c' x); [reflexivity|].
  simpl in *. now apply IH.
Qed.

Section ExecuteEdges.

Context {R : PyRuntime}.

(** X4.  The execute handler raises exactly when the command is a value
    other than a string that is true in a condition; the exception is then
    AttributeError and nothing has been started.  A command that is false
    in a condition (null, false, 0, the empty string, list or object) is
    answered with "No command provided", and the trace is left as it was;
    for a string the handler always returns a result. *)
Theorem execute_raises_iff_truthy_non_string (message : pyval) (data : pydict)
  (t : trace) :
  let command := dict_get data "command" (PStr EmptyString) in
  ((exists e t', action_execute message data t = (Raise e, t'))
   <-> (py_truthy command = true /\ forall c, command <> PStr c))
  /\ (py_truthy command = true -> (forall c, command <> PStr c) ->
      action_execute message data t = (Raise AttributeError, t))
  /\ (py_truthy command = false ->
      action_execute message data t = (Ret (failure "No command provided"), t)).
Proof.
  intros command.
  assert (Hfalsy : py_truthy command = false ->
            action_execute message data t
            = (Ret (failure "No command provided"), t)).
  { intros Hf. unfold action_execute. fold command. rewrite Hf. reflexivity. }
  assert (Hraise : py_truthy command = true -> (forall c, command <> PStr c) ->
                   action_execute message data t = (Raise AttributeError, t)).
  { intros Ht Hns. unfold action_execute. fold command. rewrite Ht.
    destruct command; try reflexivity. exfalso. now apply (Hns s). }
  split; [|split; [exact Hraise|exact Hfalsy]]. split.
  - intros (e & t' & H).
    destruct (py_truthy command) eqn:Ht.
    + split; [reflexivity|]. intros c Hc.
      rewrite (action_execute_str _ _ _ _ Hc) in H.
      destruct (is_empty c); [discriminate H|].
      destruct (existsb (startswith c) allowed_prefixes); [|discriminate H].
      unfold run_allowed in H.
      destruct (os_run t (Shell c)); [|discriminate H].
      destruct (_ <? millis)%Z; discriminate H.
    + rewrite (Hfalsy eq_refl) in H. discriminate H.
  - intros [Ht Hns]. exists AttributeError, t. now apply Hraise.
Qed.

(** X5.  The allow-list looks at the beginning of the command only: for a
    command made of an allowed prefix and any rest, whenever the shell runs
    it, it runs the command in full, and the handler returns a result. *)
Theorem allowed_prefix_runs_whole_command (message : pyval) (data : pydict)
  (t : trace) (p rest : string) (millis rc : Z) (out err : string) :
  In p allowed_prefixes ->
  dict_lookup data "command" = Some (PStr (p ++ rest)) ->
  os_run t (Shell (p ++ rest)) = Exits millis rc out err ->
  exists r evs,
    action_execute message data t
    = (Ret r, (t ++ Spawn (Shell (p ++ rest)) :: evs)%list).
Proof.
  intros Hp Hc Hrun.
  assert (Hne : is_empty (p ++ rest) = false).
  { simpl in Hp. destruct Hp as [<-|[<-|[<-|[<-|[]]]]]; reflexivity. }
  assert (Hok : existsb (startswith (p ++ rest)) allowed_prefixes = true).
  { apply existsb_exists. exists p. split; [exact Hp|apply prefix_app]. }
  rewrite (action_execute_str _ _ (p ++ rest)) by now apply dict_get_present.
  rewrite Hne, Hok. unfold run_allowed. rewrite Hrun.
  destruct (_ <? millis)%Z; eexists; eexists; reflexivity.
Qed.

(** X6.  Every allowed prefix ends with a space, so a command without a
    space, such as a bare program name, is never run: it is answered with
    "Command not allowed". *)
Theorem command_without_space_is_rejected (message : pyval) (data : pydict)
  (t : trace) (c : string) :
  dict_lookup data "command" = Some (PStr c) ->
  c <> EmptyString -> str_contains " " c = false ->
  action_execute message data t = (Ret (failure "Command not allowed"), t).
Proof.
  intros Hc Hne Hsp.
  rewrite (action_execute_str _ _ c) by now apply dict_get_present.
  apply is_empty_false in Hne. rewrite Hne.
  destruct (existsb (startswith c) allowed_prefixes) eqn:Hex; [|reflexivity].
  apply existsb_exists in Hex. destruct Hex as (p & Hp & Hpre).
  assert (Hin : str_contains " " p = true).
  { simpl in Hp. destruct Hp as [<-|[<-|[<-|[<-|[]]]]]; reflexivity. }
  rewrite (prefix_contains _ _ _ Hpre Hin) in Hsp. discriminate Hsp.
Qed.

End ExecuteEdges.

(** The command 5. *)
Lemma execute_raises_iff_truthy_non_string_witness :
  let R := sample_runtime in
  let data := [("command", PInt 5)] in
  py_truthy (PInt 5) = true
  /\ action_execute (PStr "x") data [] = (Raise AttributeError, []).
Proof.
  intros R data. split; [reflexivity|].
  refine (proj1 (proj2 (@execute_raises_iff_truthy_non_string R (PStr "x") data []))
            eq_refl _).
  discriminate.
Defined.

(** A second command after the allowed one. *)
Lemma allowed_prefix_runs_whole_command_witness :
  let R := sample_runtime in
  let data := [("command", PStr "open /tmp; rm -rf /")] in
  In "open " allowed_prefixes
  /\ dict_lookup data "command" = Some (PStr ("open " ++ "/tmp; rm -rf /"))
  /\ os_run [] (Shell ("open " ++ "/tmp; rm -rf /")) = Exits 0 0 EmptyString EmptyString
  /\ exists r evs,
      action_execute (PStr "x") data []
      = (Ret r, Spawn (Shell "open /tmp; rm -rf /") :: evs).
Proof.
  intros R data.
  assert (Hp : In "open " allowed_prefixes) by (simpl; tauto).
  assert (Hc : dict_lookup data "command" = Some (PStr ("open " ++ "/tmp; rm -rf /")))
    by reflexivity.
  split; [exact Hp|split; [exact Hc|split; [reflexivity|]]].
  exact (@allowed_prefix_runs_whole_command R (PStr "x") data []
           "open " "/tmp; rm -rf /" 0%Z 0%Z EmptyString EmptyString Hp Hc eq_refl).
Defined.

(** The bare name "osascript". *)
Lemma command_without_space_is_rejected_witness :
  let R := sample_runtime in
  let data := [("command", PStr "osascript")] in
  dict_lookup data "command" = Some (PStr "osascript")
  /\ "osascript" <> EmptyString
  /\ str_contains " " "osascript" = false
  /\ action_execute (PStr "x") data [] = (Ret (failure "Command not allowed"), []).
Proof.
  intros R data.
  assert (Hne : "osascript" <> EmptyString) by discriminate.
  split; [reflexivity|split; [exact Hne|split; [reflexivity|]]].
  exact (@command_without_space_is_rejected R (PStr "x") data [] "osascript"
           eq_refl Hne eq_refl).
Defined.

(** ** More on request parsing *)

Lemma placeholder_not_blank : blank "No message content" = false.
Proof. reflexivity. Qed.

Section ParsingEdges.

Context {R : PyRuntime}.

(** X8.  When the raw message of a JSON object is not a mapping, the
    message of the envelope is a string.  For a raw message that is a string
    (or the default "Webhook received") that string is not blank; a raw
    message of another type that is false in a condition (null, false, 0,
    the empty list) gives "No message content", any other one its [str]. *)
Theorem message_of_text_is_not_blank (d : pydict) :
  (forall m, first_present d ["message"; "text"; "raw"] <> Some (PDict m)) ->
  exists s,
    extract_message d = PStr s
    /\ (first_present d ["message"; "text"; "raw"] = None
        \/ (exists s0, first_present d ["message"; "text"; "raw"] = Some (PStr s0)) ->
        blank s = false)
    /\ (forall v, first_present d ["message"; "text"; "raw"] = Some v ->
        (forall s0, v <> PStr s0) ->
        s = if py_truthy v then py_repr v else "No message content").
Proof.
  intros Hnm. unfold extract_message. rewrite first_present_3.
  destruct (first_present d ["message"; "text"; "raw"]) as [v|] eqn:Hf.
  - destruct v as [| b | z | f | s0 | l | m].
    + eexists. split; [reflexivity|].
      split; [intros [H|[s1 H]]; discriminate H|].
      intros v Hv _. inversion Hv. reflexivity.
    + destruct (py_truthy (PBool b)) eqn:Hb; eexists; (split; [reflexivity|]);
        (split; [intros [H|[s1 H]]; discriminate H|]);
        intros v Hv _; inversion Hv; subst v; rewrite Hb; reflexivity.
    + destruct (py_truthy (PInt z)) eqn:Hb; eexists; (split; [reflexivity|]);
        (split; [intros [H|[s1 H]]; discriminate H|]);
        intros v Hv _; inversion Hv; subst v; rewrite Hb; reflexivity.
    + destruct (py_truthy (PFloat f)) eqn:Hb; eexists; (split; [reflexivity|]);
        (split; [intros [H|[s1 H]]; discriminate H|]);
        intros v Hv _; inversion Hv; subst v; rewrite Hb; reflexivity.
    + rewrite is_empty_strip. destruct (blank s0) eqn:Hb; cbn [negb].
      * exists "No message content". split; [reflexivity|].
        split; [intros _; reflexivity|].
        intros v Hv Hns. inversion Hv. subst v. now elim (Hns s0).
      * exists s0. split; [reflexivity|]. split; [intros _; exact Hb|].
        intros v Hv Hns. inversion Hv. subst v. now elim (Hns s0).
    + destruct (py_truthy (PList l)) eqn:Hb; eexists; (split; [reflexivity|]);
        (split; [intros [H|[s1 H]]; discriminate H|]);
        intros v Hv _; inversion Hv; subst v; rewrite Hb; reflexivity.
    + now elim (Hnm m).
  - exists "Webhook received". split; [reflexivity|].
    split; [intros _; reflexivity|]. intros v Hv. discriminate Hv.
Qed.

End ParsingEdges.

(** The object whose message is null. *)
Lemma message_of_text_is_not_blank_witness :
  let R := sample_runtime in
  let d := [("message", PNone); ("text", PStr "hi")] in
  (forall m, first_present d ["message"; "text"; "raw"] <> Some (PDict m))
  /\ exists s,
      extract_message d = PStr s
      /\ s = "No message content".
Proof.
  intros R d.
  assert (Hnm : forall m, first_present d ["message"; "text"; "raw"] <> Some (PDict m))
    by discriminate.
  split; [exact Hnm|].
  destruct (@message_of_text_is_not_blank R d Hnm) as (s & Hs & _ & Hv).
  exists s. split; [exact Hs|].
  refine (Hv PNone eq_refl _). discriminate.
Defined.

(** ** From the body to the handler *)

Lemma str_take_length (n : nat) (s : string) : String.length (str_take n s) <= n.
Proof.
  revert s. induction n as [|n IH]; intros [|c s]; simpl; try lia.
  specialize (IH s). lia.
Qed.

Lemma str_take_prefix (n : nat) (s : string) : String.prefix (str_take n s) s = true.
Proof.
  revert s. induction n as [|n IH]; intros [|c s]; simpl; try reflexivity.
  destruct (ascii_dec c c) as [_|Hne]; [apply IH|now elim Hne].
Qed.

Lemma str_take_all (n : nat) (s : string) :
  String.length s <= n -> str_take n s = s.
Proof.
  revert s. induction n as [|n IH]; intros [|c s]; simpl; intros Hl;
    try reflexivity; try lia.
  rewrite IH by lia. reflexivity.
Qed.

Lemma lstrip_starts (s : string) : starts_with_space (lstrip s) = false.
Proof.
  induction s as [|c s IH]; simpl; [reflexivity|].
  destruct (isspace c) eqn:Hc; [exact IH|]. simpl. exact Hc.
Qed.

Lemma rstrip_ends (s : string) : ends_with_space (rstrip s) = false.
Proof.
  induction s as [|c s IH]; simpl; [reflexivity|].
  destruct (rstrip s) as [|c' r].
  - destruct (isspace c) eqn:Hc; simpl; [reflexivity|exact Hc].
  - exact IH.
Qed.

Lemma rstrip_starts (s : string) :
  starts_with_space s = false -> starts_with_space (rstrip s) = false.
Proof.
  destruct s as [|c s]; simpl; [reflexivity|]. intros Hc.
  destruct (rstrip s); [rewrite Hc|]; simpl; exact Hc.
Qed.

Lemma lstrip_fixed (s : string) : starts_with_space s = false -> lstrip s = s.
Proof. destruct s as [|c s]; simpl; [reflexivity|]. now intros ->. Qed.

Lemma rstrip_fixed (s : string) : ends_with_space s = false -> rstrip s = s.
Proof.
  induction s as [|c s IH]; [reflexivity|].
  destruct s as [|c' s'].
  - simpl. now intros ->.
  - intros He. change (ends_with_space (String c' s') = false) in He.
    change (rstrip (String c (String c' s')))
      with (match rstrip (String c' s') with
            | EmptyString => if isspace c then EmptyString else String c EmptyString
            | r => String c r
            end).
    rewrite (IH He). reflexivity.
Qed.

Lemma parse_body_plain_text {R : PyRuntime} (body : string) (t : trace) :
  json_loads body = None -> strip body <> EmptyString ->
  parse_body body t = (Ret (plain_text_envelope body), t).
Proof.
  intros Hj Hs. rewrite (parse_body_rejected _ _ Hj).
  destruct (blank body) eqn:Hb; [|reflexivity].
  apply strip_empty in Hb. contradiction.
Qed.

Section PostFlow.

Context {R : PyRuntime}.

Lemma post_result_steps (body : string) (t : trace) :
  post_result body t =
    match parse_body body (t ++ [debug_line body])%list with
    | (Ret env, t1) =>
        match log_request (env_action env) (env_message env) t1 with
        | (Ret _, t2) =>
            handle_action (env_action env) (env_message env) (env_data env) t2
        | (Raise e, t2) => (Raise e, t2)
        end
    | (Raise e, t1) => (Raise e, t1)
    end.
Proof. reflexivity. Qed.

Lemma log_request_str (a m : string) (t : trace) :
  log_request (PStr a) (PStr m) t = (Ret tt, (t ++ [request_line t a m])%list).
Proof. reflexivity. Qed.

Lemma action_notify_str (m title : string) (data : pydict) (t : trace) :
  dict_get data "title" (PStr "ActivePieces") = PStr title ->
  action_notify (PStr m) data t =
    let cmd := osascript_notify m title data in
    match os_run t cmd with
    | Exits _ rc _ _ =>
        (Ret (if (rc =? 0)%Z then notified (PStr m)
              else failure (exn_str (CalledProcessError rc cmd))),
         (t ++ [Spawn cmd])%list)
    | Fails name => (Raise (OtherException name), (t ++ [Spawn cmd])%list)
    end.
Proof.
  intros Ht. unfold action_notify, try_except, bind, subprocess_run_argv.
  rewrite Ht. cbn [py_replace ret argv_strs option_map].
  rewrite subprocess_run_untimed. fold (notify_clean m).
  fold (osascript_notify m title data). cbv zeta.
  destruct (os_run t (osascript_notify m title data)) as [millis rc out err|name];
    [|reflexivity].
  destruct (rc =? 0)%Z; reflexivity.
Qed.

(** X9.  A JSON object whose action (given or default) and message come
    out as strings of ASCII characters is logged and dispatched without
    raising: the body and one request line are printed, then the handler of
    the action runs on the message and on the whole object as data. *)
Theorem request_reaches_dispatch (body : string) (d : pydict) (a m : string)
  (t : trace) :
  body <> EmptyString -> json_loads body = Some (PDict d) ->
  dict_get d "action" (PStr "notify") = PStr a ->
  extract_message d = PStr m ->
  ascii_only a = true -> ascii_only m = true ->
  post_result body t
  = handle_action (PStr a) (PStr m) d
      (t ++ [debug_line body; request_line (t ++ [debug_line body]) a m])%list.
Proof.
  intros Hne Hj Ha Hm _ _.
  rewrite post_result_steps, (parse_body_dict _ _ _ Hne Hj).
  cbn [env_action env_message env_data]. rewrite Ha, Hm, log_request_str.
  rewrite <- app_assoc. reflexivity.
Qed.

(** X10.  A body of plain text is turned into one notification with the
    title "Email AI Analysis" and the default sound: after the two printed
    lines osascript is started once on the stripped and cleaned text; the
    result is the success result with the stripped text when osascript
    exits with 0, and the failure result otherwise. *)
Theorem plain_text_post_notifies (body : string) (t : trace)
  (millis rc : Z) (out err : string) :
  let text := strip body in
  let lines := (t ++ [debug_line body;
                      request_line (t ++ [debug_line body]) "notify" text])%list in
  let cmd := Argv ["osascript"; "-e";
                   notify_script (notify_clean text) "Email AI Analysis"
                     (PStr "Glass")] in
  json_loads body = None -> text <> EmptyString ->
  os_run lines cmd = Exits millis rc out err ->
  post_result body t
  = (Ret (if (rc =? 0)%Z then notified (PStr text)
          else failure (exn_str (CalledProcessError rc cmd))),
     (lines ++ [Spawn cmd])%list).
Proof.
  intros text lines cmd Hj Hs Hrun.
  rewrite post_result_steps.
  rewrite (parse_body_plain_text body _ Hj Hs).
  cbn [plain_text_envelope env_action env_message env_data].
  rewrite log_request_str. cbn [handle_action actions registry_get String.eqb].
  change (registry_get actions "notify" action_notify) with action_notify.
  rewrite (action_notify_str _ "Email AI Analysis") by reflexivity.
  rewrite <- app_assoc. cbn [app]. fold text. fold lines.
  change (osascript_notify text "Email AI Analysis"
            [("title", PStr "Email AI Analysis"); ("message", PStr text)])
    with cmd.
  cbv zeta. rewrite Hrun. reflexivity.
Qed.

End PostFlow.

Section PostFlowMore.

Context {R : PyRuntime}.

(** X12.  Whenever a log request with a string message returns a result,
    the result is the success result that echoes the message, three lines
    have been printed (the body, the request line, the data) and no process
    has been started; so the results of any two such requests that return
    are the same. *)
Theorem log_request_only_prints (body : string) (d : pydict) (m : string) :
  body <> EmptyString -> json_loads body = Some (PDict d) ->
  dict_lookup d "action" = Some (PStr "log") ->
  extract_message d = PStr m ->
  (forall t r t',
      post_result body t = (Ret r, t') ->
      r = PDict [("success", PBool true); ("action", PStr "log");
                 ("message", PStr m)]
      /\ t' = (t ++ [debug_line body;
                     request_line (t ++ [debug_line body]) "log" m;
                     log_line d])%list
      /\ count_spawns [debug_line body;
                       request_line (t ++ [debug_line body])%list "log" m;
                       log_line d] = 0)
  /\ (forall t1 t2 r1 r2 t1' t2',
        post_result body t1 = (Ret r1, t1') ->
        post_result body t2 = (Ret r2, t2') -> r1 = r2).
Proof.
  intros Hne Hj Ha Hm.
  assert (Hpost : forall t,
      post_result body t
      = (Ret (logged (PStr m)),
         (t ++ [debug_line body; request_line (t ++ [debug_line body]) "log" m;
                log_line d])%list)).
  { intros t. rewrite post_result_steps, (parse_body_dict _ _ _ Hne Hj).
    cbn [env_action env_message env_data].
    rewrite (dict_get_present _ _ _ _ Ha), Hm, log_request_str.
    change (handle_action (PStr "log")) with action_log.
    unfold action_log, bind, print, emit, ret.
    rewrite <- !app_assoc. reflexivity. }
  split.
  - intros t r t' H. rewrite Hpost in H. inversion H.
    split; [reflexivity|]. split; reflexivity.
  - intros t1 t2 r1 r2 t1' t2' H1 H2. rewrite Hpost in H1, H2.
    inversion H1. inversion H2. reflexivity.
Qed.

(** X13.  The request line shows at most the first 100 characters of a
    string message: what is shown is a prefix of the message, at most 100
    characters long, and the whole message when that has at most 100
    characters. *)
Theorem request_line_shows_100_characters (a m : string) (t : trace) :
  exists shown,
    log_request (PStr a) (PStr m) t
    = (Ret tt, (t ++ [Printed ("[" ++ timestamp t ++ "] " ++ str_upper a ++ ": "
                               ++ shown)])%list)
    /\ String.length shown <= 100
    /\ String.prefix shown m = true
    /\ (String.length m <= 100 -> shown = m).
Proof.
  exists (str_take 100 m). split; [reflexivity|].
  split; [apply str_take_length|].
  split; [apply str_take_prefix|apply str_take_all].
Qed.

(** X14.  The message of a plain-text notification, also stored under the
    message key of its data, is [body.strip()], the body without the white
    space around it: it neither starts nor ends with white space, and
    stripping it again changes nothing. *)
Theorem plain_text_message_is_trimmed (body : string) (t : trace) :
  json_loads body = None -> strip body <> EmptyString ->
  exists env,
    parse_body body t = (Ret env, t)
    /\ env_message env = PStr (strip body)
    /\ dict_lookup (env_data env) "message" = Some (PStr (strip body))
    /\ starts_with_space (strip body) = false
    /\ ends_with_space (strip body) = false
    /\ strip (strip body) = strip body.
Proof.
  intros Hj Hs.
  exists (plain_text_envelope body).
  split; [now apply parse_body_plain_text|].
  split; [reflexivity|]. split; [reflexivity|].
  assert (H1 : starts_with_space (strip body) = false)
    by apply rstrip_starts, lstrip_starts.
  assert (H2 : ends_with_space (strip body) = false) by apply rstrip_ends.
  split; [exact H1|]. split; [exact H2|].
  unfold strip at 1. rewrite (lstrip_fixed _ H1). now apply rstrip_fixed.
Qed.

End PostFlowMore.

Lemma request_reaches_dispatch_witness :
  let R := sample_runtime in
  let d := [("text", PStr "hi")] in
  body_text_hi <> EmptyString
  /\ json_loads body_text_hi = Some (PDict d)
  /\ dict_get d "action" (PStr "notify") = PStr "notify"
  /\ extract_message d = PStr "hi"
  /\ ascii_only "notify" = true
  /\ ascii_only "hi" = true
  /\ post_result body_text_hi []
     = handle_action (PStr "notify") (PStr "hi") d
         [debug_line body_text_hi; request_line [debug_line body_text_hi] "notify" "hi"].
Proof.
  intros R d.
  assert (Hne : body_text_hi <> EmptyString) by discriminate.
  split; [exact Hne|]. split; [reflexivity|]. split; [reflexivity|].
  split; [reflexivity|]. split; [reflexivity|]. split; [reflexivity|].
  exact (@request_reaches_dispatch R body_text_hi d "notify" "hi" []
           Hne eq_refl eq_refl eq_refl eq_refl eq_refl).
Defined.

(** A line of text, on a machine where osascript exits with 1. *)
Lemma plain_text_post_notifies_witness :
  let R := table_runtime [] (os_exit 1) in
  let body := "  disk almost full " in
  let cmd := Argv ["osascript"; "-e";
                   notify_script "disk almost full" "Email AI Analysis" (PStr "Glass")] in
  let lines := [debug_line body; request_line [debug_line body] "notify" "disk almost full"] in
  json_loads body = None
  /\ strip body <> EmptyString
  /\ os_run lines cmd = Exits 0 1 EmptyString EmptyString
  /\ post_result body []
     = (Ret (failure "CalledProcessError"), (lines ++ [Spawn cmd])%list).
Proof.
  intros R body cmd lines.
  assert (Hs : strip body <> EmptyString) by discriminate.
  split; [reflexivity|]. split; [exact Hs|]. split; [reflexivity|].
  exact (@plain_text_post_notifies R body [] 0%Z 1%Z EmptyString EmptyString
           eq_refl Hs eq_refl).
Defined.

(** The request with action "log" and message "x". *)
Lemma log_request_only_prints_witness :
  let body := "{" ++ quoted "action" ++ ":" ++ quoted "log" ++ ","
              ++ quoted "message" ++ ":" ++ quoted "x" ++ "}" in
  let d := [("action", PStr "log"); ("message", PStr "x")] in
  let R := table_runtime [(body, PDict d)] os_broken in
  let r := PDict [("success", PBool true); ("action", PStr "log");
                  ("message", PStr "x")] in
  let t' := [debug_line body; request_line [debug_line body] "log" "x"; log_line d] in
  body <> EmptyString
  /\ json_loads body = Some (PDict d)
  /\ dict_lookup d "action" = Some (PStr "log")
  /\ extract_message d = PStr "x"
  /\ post_result body [] = (Ret r, t')
  /\ count_spawns t' = 0.
Proof.
  intros body d R r t'.
  assert (Hne : body <> EmptyString) by discriminate.
  assert (H : post_result body [] = (Ret r, t')) by reflexivity.
  split; [exact Hne|]. split; [reflexivity|]. split; [reflexivity|].
  split; [reflexivity|]. split; [exact H|].
  exact (proj2 (proj2 (proj1 (@log_request_only_prints R body d "x"
                                Hne eq_refl eq_refl eq_refl) [] r t' H))).
Defined.

Lemma plain_text_message_is_trimmed_witness :
  let R := sample_runtime in
  json_loads "  disk almost full " = None
  /\ strip "  disk almost full " <> EmptyString
  /\ exists env,
      parse_body "  disk almost full " [] = (Ret env, [])
      /\ env_message env = PStr "disk almost full"
      /\ strip "disk almost full" = "disk almost full".
Proof.
  intros R.
  assert (Hs : strip "  disk almost full " <> EmptyString) by discriminate.
  split; [reflexivity|]. split; [exact Hs|].
  destruct (@plain_text_message_is_trimmed R "  disk almost full " [] eq_refl Hs)
    as (env & Hp & Hm & _ & _ & _ & Hfix).
  exists env. split; [exact Hp|]. split; [exact Hm|exact Hfix].
Defined.

(** ** The tools of notify, say and sound *)

Section ToolRuns.

Context {R : PyRuntime}.

Lemma action_say_str (m voice : string) (data : pydict) (t : trace) :
  dict_get data "voice" (PStr "Samantha") = PStr voice ->
  action_say (PStr m) data t =
    let cmd := say_command m voice in
    match os_run t cmd with
    | Exits _ rc _ _ =>
        (Ret (if (rc =? 0)%Z then said (PStr m)
              else failure (exn_str (CalledProcessError rc cmd))),
         (t ++ [Spawn cmd])%list)
    | Fails name => (Raise (OtherException name), (t ++ [Spawn cmd])%list)
    end.
Proof.
  intros Hv. unfold action_say, try_except, bind, subprocess_run_argv.
  rewrite Hv. cbn [py_replace ret argv_strs option_map].
  rewrite subprocess_run_untimed. fold (say_clean m).
  fold (say_command m voice). cbv zeta.
  destruct (os_run t (say_command m voice)) as [millis rc out err|name];
    [|reflexivity].
  destruct (rc =? 0)%Z; reflexivity.
Qed.

(** X15.  With a string message and a string title (a string voice for
    say), notify and say start their tool exactly once and never raise for
    an exit status: exit status 0 gives the success result with the
    message, any other status the failure result with the text of the
    CalledProcessError. *)
Theorem exit_status_decides_notify_and_say (m : string) (data : pydict) (t : trace) :
  (forall title millis rc out err,
      dict_get data "title" (PStr "ActivePieces") = PStr title ->
      os_run t (osascript_notify m title data) = Exits millis rc out err ->
      action_notify (PStr m) data t
      = (Ret (if (rc =? 0)%Z then notified (PStr m)
              else failure (exn_str
                     (CalledProcessError rc (osascript_notify m title data)))),
         (t ++ [Spawn (osascript_notify m title data)])%list))
  /\ (forall voice millis rc out err,
        dict_get data "voice" (PStr "Samantha") = PStr voice ->
        os_run t (say_command m voice) = Exits millis rc out err ->
        action_say (PStr m) data t
        = (Ret (if (rc =? 0)%Z then said (PStr m)
                else failure (exn_str
                       (CalledProcessError rc (say_command m voice)))),
           (t ++ [Spawn (say_command m voice)])%list)).
Proof.
  split.
  - intros title millis rc out err Ht Hrun.
    rewrite (action_notify_str _ _ _ _ Ht). cbv zeta. rewrite Hrun. reflexivity.
  - intros voice millis rc out err Hv Hrun.
    rewrite (action_say_str _ _ _ _ Hv). cbv zeta. rewrite Hrun. reflexivity.
Qed.

(** X16.  Values of the wrong type stop notify and say before any process
    is started: a message that is not a string raises AttributeError in
    both, a title that is not a string raises AttributeError in notify, a
    voice that is not a string raises TypeError in say; the trace is left
    as it was. *)
Theorem wrong_types_raise_before_running (message : pyval) (data : pydict)
  (t : trace) :
  ((forall m, message <> PStr m) ->
   action_notify message data t = (Raise AttributeError, t)
   /\ action_say message data t = (Raise AttributeError, t))
  /\ (forall m, message = PStr m ->
      (forall s, dict_get data "title" (PStr "ActivePieces") <> PStr s) ->
      action_notify message data t = (Raise AttributeError, t))
  /\ (forall m, message = PStr m ->
      (forall s, dict_get data "voice" (PStr "Samantha") <> PStr s) ->
      action_say message data t = (Raise TypeError, t)).
Proof.
  split; [|split].
  - intros Hns. unfold action_notify, action_say, bind.
    destruct message; try (split; reflexivity). now elim (Hns s).
  - intros m -> Hns. unfold action_notify, bind. cbn [py_replace ret].
    destruct (dict_get data "title" (PStr "ActivePieces")); try reflexivity.
    now elim (Hns s).
  - intros m -> Hns.
    unfold action_say, bind, try_except, subprocess_run_argv.
    cbn [py_replace ret argv_strs].
    destruct (dict_get data "voice" (PStr "Samantha")); try reflexivity.
    now elim (Hns s).
Qed.

(** X17.  The second playback tool is tried after a non-zero exit status of
    the first one only: when osascript cannot be run at all, the exception
    leaves the sound handler and afplay is not started. *)
Theorem sound_fallback_needs_exit_status (message : pyval) (data : pydict)
  (t : trace) (name : string) :
  os_run t (osascript_sound data) = Fails name ->
  action_sound message data t
  = (Raise (OtherException name), (t ++ [Spawn (osascript_sound data)])%list).
Proof.
  intros Hrun. unfold action_sound, try_except, bind, subprocess_run_argv.
  cbn [argv_strs option_map]. rewrite subprocess_run_untimed.
  fold (osascript_sound data). rewrite Hrun. reflexivity.
Qed.

End ToolRuns.

(** osascript exits with status 1. *)
Lemma exit_status_decides_notify_and_say_witness :
  let R := table_runtime [] (os_exit 1) in
  let cmd := osascript_notify "hi" "ActivePieces" [] in
  dict_get [] "title" (PStr "ActivePieces") = PStr "ActivePieces"
  /\ os_run [] cmd = Exits 0 1 EmptyString EmptyString
  /\ action_notify (PStr "hi") [] []
     = (Ret (failure "CalledProcessError"), [Spawn cmd]).
Proof.
  intros R cmd. split; [reflexivity|]. split; [reflexivity|].
  exact (proj1 (@exit_status_decides_notify_and_say R "hi" [] [])
           "ActivePieces" 0%Z 1%Z EmptyString EmptyString eq_refl eq_refl).
Defined.

(** The title 5. *)
Lemma wrong_types_raise_before_running_witness :
  let R := sample_runtime in
  let data := [("title", PInt 5)] in
  (forall s, dict_get data "title" (PStr "ActivePieces") <> PStr s)
  /\ action_notify (PStr "hi") data [] = (Raise AttributeError, []).
Proof.
  intros R data.
  assert (Hns : forall s, dict_get data "title" (PStr "ActivePieces") <> PStr s)
    by discriminate.
  split; [exact Hns|].
  exact (proj1 (proj2 (@wrong_types_raise_before_running R (PStr "hi") data []))
           "hi" eq_refl Hns).
Defined.

Lemma sound_fallback_needs_exit_status_witness :
  let R := table_runtime [] os_broken in
  os_run [] (osascript_sound []) = Fails "OSError"
  /\ action_sound (PStr "ping") [] []
     = (Raise (OtherException "OSError"), [Spawn (osascript_sound [])]).
Proof.
  intros R. split; [reflexivity|].
  exact (@sound_fallback_needs_exit_status R (PStr "ping") [] [] "OSError" eq_refl).
Defined.

(** ** Processes started by one request *)

Lemma count_spawns_app (a b : list event) :
  count_spawns (a ++ b) = count_spawns a + count_spawns b.
Proof. unfold count_spawns. now rewrite filter_app, length_app. Qed.

Lemma extends_trans (k1 k2 : nat) (t t1 t2 : trace) :
  extends_by_spawns k1 t t1 -> extends_by_spawns k2 t1 t2 ->
  extends_by_spawns (k1 + k2) t t2.
Proof.
  intros (e1 & -> & H1) (e2 & -> & H2). exists (e1 ++ e2)%list.
  split; [now rewrite app_assoc|]. rewrite count_spawns_app. lia.
Qed.

Lemma extends_weaken (k k' : nat) (t t' : trace) :
  k <= k' -> extends_by_spawns k t t' -> extends_by_spawns k' t t'.
Proof. intros Hk (evs & -> & H). exists evs. split; [reflexivity|lia]. Qed.

(** Closes a goal [extends_by_spawns k t t'] where [t'] is [t] followed by
    explicit events. *)
Ltac close_extends :=
  unfold extends_by_spawns;
  first
    [ exists []; split; [symmetry; apply app_nil_r | cbn; lia]
    | eexists; split; [rewrite <- ?app_assoc; reflexivity | cbn; lia] ].

Section Spawns.

Context {R : PyRuntime}.

Lemma parse_body_trace (body : string) (t : trace) : snd (parse_body body t) = t.
Proof.
  unfold parse_body. destruct (load_body body) as [is_json data].
  destruct (negb is_json && negb (is_empty (strip body))); [reflexivity|].
  destruct data; reflexivity.
Qed.

Lemma log_request_extends (action message : pyval) (t : trace) :
  extends_by_spawns 0 t (snd (log_request action message t)).
Proof.
  unfold log_request, bind, get_trace, print, emit.
  destruct action; cbn; try close_extends.
  destruct message; cbn; close_extends.
Qed.

Lemma action_notify_extends (message : pyval) (data : pydict) (t : trace) :
  extends_by_spawns 1 t (snd (action_notify message data t)).
Proof.
  destruct message as [| | | |m| |];
    try (unfold action_notify, bind; cbn; close_extends).
  destruct (dict_get data "title" (PStr "ActivePieces")) as [| | | |title| |] eqn:Ht;
    try (unfold action_notify, bind; rewrite Ht; cbn; close_extends).
  rewrite (action_notify_str _ _ _ _ Ht). cbv zeta.
  destruct (os_run t _); cbn; close_extends.
Qed.

Lemma action_say_extends (message : pyval) (data : pydict) (t : trace) :
  extends_by_spawns 1 t (snd (action_say message data t)).
Proof.
  destruct message as [| | | |m| |];
    try (unfold action_say, bind; cbn; close_extends).
  destruct (dict_get data "voice" (PStr "Samantha")) as [| | | |voice| |] eqn:Hv;
    try (unfold action_say, bind, try_except, subprocess_run_argv; rewrite Hv;
         cbn; close_extends).
  rewrite (action_say_str _ _ _ _ Hv). cbv zeta.
  destruct (os_run t _); cbn; close_extends.
Qed.

Lemma action_sound_extends (message : pyval) (data : pydict) (t : trace) :
  extends_by_spawns 2 t (snd (action_sound message data t)).
Proof.
  unfold action_sound, try_except, bind, subprocess_run_argv, on_CalledProcessError.
  cbn [argv_strs option_map]. rewrite subprocess_run_untimed.
  destruct (os_run t _) as [millis rc out err|name]; [|cbn; close_extends].
  destruct (rc =? 0)%Z; cbn [andb negb is_CalledProcessError];
    [cbn; close_extends|].
  rewrite subprocess_run_untimed.
  destruct (os_run _ _) as [millis' rc' out' err'|name]; cbn; close_extends.
Qed.

Lemma action_log_extends (message : pyval) (data : pydict) (t : trace) :
  extends_by_spawns 0 t (snd (action_log message data t)).
Proof. unfold action_log, bind, print, emit. cbn. close_extends. Qed.

Lemma action_execute_extends (message : pyval) (data : pydict) (t : trace) :
  extends_by_spawns 1 t (snd (action_execute message data t)).
Proof.
  destruct (dict_get data "command" (PStr EmptyString)) as [| b | z | f | c | l | d] eqn:Hc.
  1-4, 6-7: unfold action_execute; rewrite Hc;
    destruct (negb (py_truthy _)); cbn; close_extends.
  rewrite (action_execute_str _ _ _ _ Hc).
  destruct (is_empty c); [cbn; close_extends|].
  destruct (existsb (startswith c) allowed_prefixes); [|cbn; close_extends].
  unfold run_allowed.
  destruct (os_run t (Shell c)) as [millis rc out err|name]; [|cbn; close_extends].
  destruct (_ <? millis)%Z; cbn; close_extends.
Qed.

Lemma handle_action_extends (action message : pyval) (data : pydict) (t : trace) :
  extends_by_spawns 2 t (snd (handle_action action message data t))
  /\ (action <> PStr "sound" ->
      extends_by_spawns 1 t (snd (handle_action action message data t))).
Proof.
  assert (Hn := action_notify_extends message data t).
  destruct action as [| b | z | f | a | l | d]; cbn [handle_action];
    try (split; [apply (extends_weaken 1); [lia|exact Hn] | intros _; exact Hn]);
    try (split; [|intros _]; cbn; close_extends).
  destruct (String.eqb_spec a "sound") as [->|Hne].
  - split; [apply action_sound_extends|]. intros H. now elim H.
  - assert (H1 : extends_by_spawns 1 t
                   (snd (registry_get actions a action_notify message data t))).
    { unfold actions. cbn [registry_get].
      destruct (String.eqb "notify" a); [exact Hn|].
      destruct (String.eqb "notification" a); [exact Hn|].
      destruct (String.eqb_spec "sound" a) as [<-|_]; [now elim Hne|].
      destruct (String.eqb "say" a); [apply action_say_extends|].
      destruct (String.eqb "log" a);
        [apply (extends_weaken 0); [lia|apply action_log_extends]|].
      destruct (String.eqb "execute" a); [apply action_execute_extends|exact Hn]. }
    split; [apply (extends_weaken 1); [lia|exact H1] | intros _; exact H1].
Qed.

(** X18.  Whatever the body, and whether the request ends in a result or in
    an exception, handling it only adds events to the trace and starts at
    most two processes; only the sound action can start two (osascript and
    then afplay), every other action starts at most one. *)
Theorem request_starts_at_most_two_processes (body : string) (t : trace) :
  extends_by_spawns 2 t (snd (post_result body t))
  /\ (forall action message data,
        action <> PStr "sound" ->
        extends_by_spawns 1 t (snd (handle_action action message data t))).
Proof.
  split; [|intros action message data; apply handle_action_extends].
  rewrite post_result_steps.
  assert (H0 : extends_by_spawns 0 t (t ++ [debug_line body])%list)
    by close_extends.
  pose proof (parse_body_trace body (t ++ [debug_line body])%list) as Hp.
  destruct (parse_body body (t ++ [debug_line body])%list) as [[env|e] t1];
    cbn [snd] in Hp; subst t1.
  2: { apply (extends_weaken 0); [lia|exact H0]. }
  pose proof (log_request_extends (env_action env) (env_message env)
                (t ++ [debug_line body])%list) as Hl.
  destruct (log_request (env_action env) (env_message env) _) as [[u|e] t2];
    cbn [snd] in Hl.
  - apply (extends_trans 0 2 _ _ _ (extends_trans 0 0 _ _ _ H0 Hl)).
    apply handle_action_extends.
  - apply (extends_weaken 0); [lia|]. apply (extends_trans 0 0 _ _ _ H0 Hl).
Qed.

End Spawns.

(** A say request on a machine where every tool exits with 0. *)
Lemma request_starts_at_most_two_processes_witness :
  let R := sample_runtime in
  PStr "say" <> PStr "sound"
  /\ extends_by_spawns 1 [] (snd (handle_action (PStr "say") (PStr "hi") [] [])).
Proof.
  intros R.
  assert (Hne : PStr "say" <> PStr "sound") by discriminate.
  split; [exact Hne|].
  exact (proj2 (@request_starts_at_most_two_processes R EmptyString [])
           (PStr "say") (PStr "hi") [] Hne).
Defined.

Section NestedMessage.

Context {R : PyRuntime}.

(** X19.  When the message of a JSON object is a mapping whose chosen value
    is null, a boolean or a number, the request raises TypeError while the
    request line is built ([message[:100]]): only the body has been printed
    and no handler runs. *)
Theorem nested_scalar_message_raises (body : string) (d : pydict) (a : string)
  (v : pyval) (t : trace) :
  body <> EmptyString -> json_loads body = Some (PDict d) ->
  dict_get d "action" (PStr "notify") = PStr a ->
  extract_message d = v ->
  (v = PNone \/ (exists b, v = PBool b) \/ (exists z, v = PInt z)
   \/ (exists f, v = PFloat f)) ->
  post_result body t = (Raise TypeError, (t ++ [debug_line body])%list).
Proof.
  intros Hne Hj Ha Hm Hv.
  rewrite post_result_steps, (parse_body_dict _ _ _ Hne Hj).
  cbn [env_action env_message env_data]. rewrite Ha, Hm.
  destruct Hv as [->|[[b ->]|[[z ->]|[f ->]]]]; reflexivity.
Qed.

End NestedMessage.

(** The object whose message is the mapping with result = 5. *)
Lemma nested_scalar_message_raises_witness :
  let body := "{" ++ quoted "message" ++ ":{" ++ quoted "result" ++ ":5}}" in
  let d := [("message", PDict [("result", PInt 5)])] in
  let R := table_runtime [(body, PDict d)] (os_exit 0) in
  body <> EmptyString
  /\ json_loads body = Some (PDict d)
  /\ extract_message d = PInt 5
  /\ post_result body [] = (Raise TypeError, [debug_line body]).
Proof.
  intros body d R.
  assert (Hne : body <> EmptyString) by discriminate.
  split; [exact Hne|]. split; [reflexivity|]. split; [reflexivity|].
  refine (@nested_scalar_message_raises R body d "notify" (PInt 5) []
            Hne eq_refl eq_refl eq_refl _).
  right. right. left. now exists 5%Z.
Defined.

(** ** A sound request whose tool cannot be run *)

Section SoundFailure.

Context {R : PyRuntime}.

Lemma action_sound_outcome (message : pyval) (data : pydict) (t : trace) :
  action_sound message data t =
    match os_run t (osascript_sound data) with
    | Fails name =>
        (Raise (OtherException name), (t ++ [Spawn (osascript_sound data)])%list)
    | Exits _ rc _ _ =>
        if (rc =? 0)%Z
        then (Ret (played data), (t ++ [Spawn (osascript_sound data)])%list)
        else
          match os_run (t ++ [Spawn (osascript_sound data)])%list
                  (afplay_sound data) with
          | Fails name =>
              (Raise (OtherException name),
               (t ++ [Spawn (osascript_sound data); Spawn (afplay_sound data)])%list)
          | Exits _ _ _ _ =>
              (Ret (played data),
               (t ++ [Spawn (osascript_sound data); Spawn (afplay_sound data)])%list)
          end
    end.
Proof.
  unfold action_sound, try_except, bind, subprocess_run_argv, on_CalledProcessError.
  cbn [argv_strs option_map]. rewrite subprocess_run_untimed.
  fold (osascript_sound data).
  destruct (os_run t (osascript_sound data)) as [millis rc out err|name];
    [|reflexivity].
  destruct (rc =? 0)%Z; cbn [andb negb is_CalledProcessError]; [reflexivity|].
  rewrite subprocess_run_untimed. fold (afplay_sound data).
  destruct (os_run _ (afplay_sound data)) as [millis' rc' out' err'|name];
    cbn; rewrite <- app_assoc; reflexivity.
Qed.

(** C7.  The sound action does not always report success: when
    [subprocess.run] raises another exception than CalledProcessError for
    osascript (the tool cannot be started, or the sound name holds a NUL
    character), or for afplay after a non-zero exit of osascript, the
    exception leaves the handler; a POST request for the sound action then
    raises and no response is written. *)
Theorem sound_request_raises_when_tool_fails (message : pyval) (data : pydict)
  (name : string) :
  (forall t,
      os_run t (osascript_sound data) = Fails name ->
      exists t',
        handle_action (PStr "sound") message data t
        = (Raise (OtherException name), t'))
  /\ (forall t millis rc out err,
        os_run t (osascript_sound data) = Exits millis rc out err ->
        rc <> 0%Z ->
        os_run (t ++ [Spawn (osascript_sound data)])%list (afplay_sound data)
        = Fails name ->
        exists t',
          handle_action (PStr "sound") message data t
          = (Raise (OtherException name), t'))
  /\ (forall body t,
        body <> EmptyString -> json_loads body = Some (PDict data) ->
        dict_lookup data "action" = Some (PStr "sound") ->
        (forall t1, os_run t1 (osascript_sound data) = Fails name) ->
        exists e t', do_POST body t = (Raise e, t')).
Proof.
  change (handle_action (PStr "sound") message data)
    with (action_sound message data).
  split; [|split].
  - intros t Hrun. rewrite action_sound_outcome, Hrun. eexists. reflexivity.
  - intros t millis rc out err Hrun Hrc Hrun'.
    rewrite action_sound_outcome, Hrun.
    apply Z.eqb_neq in Hrc. rewrite Hrc, Hrun'. eexists. reflexivity.
  - intros body t Hne Hj Ha Hrun.
    unfold do_POST. unfold bind at 1.
    rewrite post_result_steps, (parse_body_dict _ _ _ Hne Hj).
    cbn [env_action env_message env_data].
    rewrite (dict_get_present _ _ _ _ Ha).
    destruct (log_request (PStr "sound") (extract_message data) _)
      as [[u|e] t2].
    + change (handle_action (PStr "sound") (extract_message data) data t2)
        with (action_sound (extract_message data) data t2).
      rewrite action_sound_outcome, Hrun. eexists. eexists. reflexivity.
    + exists e, t2. reflexivity.
Qed.

End SoundFailure.

(** The request for the sound "Glass" followed by a NUL character, on a
    machine where every tool runs. *)
Lemma sound_request_raises_when_tool_fails_witness :
  let R := table_runtime [(body_sound_nul, PDict data_sound_nul)] os_refuses_nul in
  body_sound_nul <> EmptyString
  /\ json_loads body_sound_nul = Some (PDict data_sound_nul)
  /\ dict_lookup data_sound_nul "action" = Some (PStr "sound")
  /\ (forall t1, os_run t1 (osascript_sound data_sound_nul) = Fails "ValueError")
  /\ fst (do_POST body_sound_nul []) = Raise (OtherException "ValueError")
  /\ exists e t', do_POST body_sound_nul [] = (Raise e, t').
Proof.
  intros R.
  assert (Hne : body_sound_nul <> EmptyString) by discriminate.
  assert (Hrun : forall t1,
             os_run t1 (osascript_sound data_sound_nul) = Fails "ValueError")
    by (intros t1; reflexivity).
  split; [exact Hne|]. split; [reflexivity|]. split; [reflexivity|].
  split; [exact Hrun|]. split; [reflexivity|].
  exact (proj2 (proj2 (@sound_request_raises_when_tool_fails R PNone
                         data_sound_nul "ValueError"))
           body_sound_nul [] Hne eq_refl eq_refl Hrun).
Defined.
